(** * ocspchecker: OCSP revocation checking (main.go)

    A shallow embedding of [main.go] and the properties of its
    behaviour.  The program decodes the Authority Information Access
    extension of a certificate ([decodeAIA]), interprets OCSP responses
    ([parseResponse]) and drives two scenarios: a live TLS connection
    ([processURL]) and a standalone PEM file ([processFile]).

    Go values are modelled as follows:
    - [[]byte] is [list byte]; a nil slice whose nil-ness the program
      tests is an [option];
    - [int] is [Z];
    - a Go [error] result is [option error], [None] being [nil];
    - calls into libraries (encoding/asn1, crypto/x509, net/http,
      golang.org/x/crypto/ocsp, the file system) are capabilities the
      functions are parameterised by;
    - logging, standard output and network traffic are recorded as a
      trace of events;
    - format strings are kept as the source writes them (the two
      characters of an escape such as \n included), with their
      arguments: formatting is left to [fmt] and [log]. *)

From Stdlib Require Import List ZArith Lia String Strings.Byte Bool Arith.
From Stdlib Require Import DecimalString DecimalPos DecimalZ.
From Equations Require Import Equations.
From Equations.Prop Require Import Logic.
Import ListNotations.

#[local] Set Warnings "-register-all".

Local Open Scope string_scope.
Local Open Scope Z_scope.

(** ** Errors and results *)

(** encoding/asn1's [RawValue]. *)
Record RawValue : Type := mkRawValue {
  Class : Z;
  Tag : Z;
  IsCompound : bool;
  Bytes : list byte;
  FullBytes : list byte
}.

(** An argument of a [fmt] verb.  Formatting itself is left to [fmt]:
    a formatted error keeps its format string and its arguments. *)
Inductive fmt_arg (E : Type) : Type :=
| ArgErr (e : option E)
| ArgRawValue (v : RawValue)
| ArgString (s : string).
Arguments ArgErr {E} e.
Arguments ArgRawValue {E} v.
Arguments ArgString {E} s.

(** Go [error] values met in the program. *)
Inductive error : Type :=
| SyntaxError (Msg : string)          (* asn1.SyntaxError{Msg} *)
| StructuralError (Msg : string)      (* asn1.StructuralError{Msg} *)
| errors_New (text : string)          (* an error of a library, by message *)
| Errorf (format : string) (args : list (fmt_arg error)).  (* fmt.Errorf *)

(** The result of a library call that returns [(value, error)]. *)
Inductive result (A : Type) : Type :=
| Ok (a : A)
| Err (e : error).
Arguments Ok {A} a.
Arguments Err {A} e.

(** ** encoding/asn1 *)

Definition ObjectIdentifier : Type := list Z.

(** [func (oi ObjectIdentifier) Equal(other ObjectIdentifier) bool] *)
Fixpoint Equal (oi other : ObjectIdentifier) : bool :=
  match oi, other with
  | [], [] => true
  | x :: oi', y :: other' => (x =? y) && Equal oi' other'
  | _, _ => false
  end.

(** The decoding capability of encoding/asn1, as [decodeAIA] uses it:
    [asn1.Unmarshal(b, &v)] for [v] a [RawValue] and for [v] an
    [ObjectIdentifier].  Each returns the decoded value and the rest of
    the input, or an error.  A successful [Unmarshal] of a [RawValue]
    has consumed a tag and a length, so the rest is shorter than the
    input. *)
Class Asn1 : Type := {
  Unmarshal_RawValue : list byte -> result (RawValue * list byte);
  Unmarshal_ObjectIdentifier : list byte -> result (ObjectIdentifier * list byte);
  Unmarshal_RawValue_consumes : forall b v rest,
    Unmarshal_RawValue b = Ok (v, rest) -> (List.length rest < List.length b)%nat
}.

(** ** Package-level variables of main.go *)

Definition authorityInfoAccess : ObjectIdentifier := [1; 3; 6; 1; 5; 5; 7; 1; 1].
Definition aiaOCSP : ObjectIdentifier := [1; 3; 6; 1; 5; 5; 7; 48; 1].
Definition aiaIssuer : ObjectIdentifier := [1; 3; 6; 1; 5; 5; 7; 48; 2].

(** ** decodeAIA *)

Section DecodeAIA.
Context {asn1 : Asn1}.

(** What one pass through the body of the [for len(rest) > 0] loop
    does: it returns from [decodeAIA], or goes round again with the
    bytes left after the child just read. *)
Inductive iteration : Type :=
| Return (r : string * option error)
| Continue (rest : list byte).

(** The body of the loop, lines 58-89.  The [rest] declared by [:=] at
    line 75 is local to the body; the loop variable is the [rest]
    assigned at line 59. *)
Definition decodeAIA_body (rest : list byte) : iteration :=
  match Unmarshal_RawValue rest with
  | Err err => Return ("", Some (Errorf "Error unmarshaling %s" [ArgErr (Some err)]))
  | Ok (inside, rest) =>
    if negb (IsCompound inside) || negb (Tag inside =? 16) || negb (Class inside =? 0)
    then Return ("", Some (StructuralError "bad SAN sequence"))
    else
      match Unmarshal_ObjectIdentifier (Bytes inside) with
      | Err err => Return ("", Some (Errorf "Error unmarshaling %s" [ArgErr (Some err)]))
      | Ok (oidValue, body) =>
        match Unmarshal_RawValue body with
        | Err err => Return ("", Some (Errorf "Error unmarshaling %s" [ArgErr (Some err)]))
        | Ok (extensionData, rest') =>
          if negb (List.length rest' =? 0)%nat
          then Return ("", Some (Errorf "x509: trailing data after AIA extension" []))
          else if Equal oidValue aiaIssuer
          then
            if Tag extensionData =? 6
            then Return (string_of_list_byte (Bytes extensionData), None)
            else Return ("", Some (Errorf "Unknown type for AIA Issuer extension: %+v"
                                          [ArgRawValue extensionData]))
          else Continue rest
        end
      end
  end.

(** The loop [for len(rest) > 0 { ... }] followed by the final
    [return "", nil] (lines 57-94). *)
Equations decodeAIA_loop (rest : list byte) : string * option error
  by wf (List.length rest) lt :=
decodeAIA_loop [] := ("", None);
decodeAIA_loop (b :: bs) with inspect (decodeAIA_body (b :: bs)) := {
  | exist _ (Return r) _ := r;
  | exist _ (Continue rest') H := decodeAIA_loop rest' }.
Next Obligation.
  revert H. unfold decodeAIA_body.
  destruct (Unmarshal_RawValue (b :: bs)) as [[inside r1]|e] eqn:E1; [|discriminate].
  destruct (_ || _); [discriminate|].
  destruct (Unmarshal_ObjectIdentifier _) as [[oid body]|e]; [|discriminate].
  destruct (Unmarshal_RawValue body) as [[ed r2]|e]; [|discriminate].
  destruct (negb _); [discriminate|].
  destruct (Equal _ _); [destruct (_ =? _); discriminate|].
  intros H; injection H as <-.
  exact (Unmarshal_RawValue_consumes (b :: bs) inside r1 E1).
Qed.

(** [func decodeAIA(ext []byte) (string, error)] *)
Definition decodeAIA (ext : list byte) : string * option error :=
  match Unmarshal_RawValue ext with
  | Err err => ("", Some (Errorf "Error unmarshaling %s" [ArgErr (Some err)]))
  | Ok (seq, rest) =>
    if negb (List.length rest =? 0)%nat
    then ("", Some (Errorf "x509: trailing data after X.509 extension" []))
    else if negb (IsCompound seq) || negb (Tag seq =? 16) || negb (Class seq =? 0)
    then ("", Some (StructuralError "bad SAN sequence"))
    else decodeAIA_loop (Bytes seq)
  end.

End DecodeAIA.

(** ** Types of the libraries the program uses *)

Module x509.

(** [pkix.Extension] *)
Record Extension : Type := {
  Id : ObjectIdentifier;
  Critical : bool;
  Value : list byte
}.

(** The fields of [x509.Certificate] the program reads;
    [CommonName] is [Subject.CommonName]. *)
Record Certificate : Type := {
  CommonName : string;
  Extensions : list Extension;
  OCSPServer : list string
}.

End x509.

Module tls.

(** The fields of [tls.ConnectionState] the program reads.
    [OCSPResponse] is a [[]byte] compared with [nil]: [None] is [nil]. *)
Record ConnectionState : Type := {
  VerifiedChains : list (list x509.Certificate);
  OCSPResponse : option (list byte)
}.

End tls.

Module http.

(** [http.Response]: [TLS] is a pointer, [None] being [nil]; [Body] is
    the bytes a reader gets from the body, and the error (if any) that
    ends the reading. *)
Record Response : Type := {
  TLS : option tls.ConnectionState;
  Body : list byte * option error
}.

End http.

Module pem.

(** [pem.Block] *)
Record Block : Type := {
  Type_ : string;
  Bytes : list byte
}.

End pem.

Module ocsp.

(** The constants [ocsp.Good], [ocsp.Revoked], [ocsp.Unknown]. *)
Definition Good : Z := 0.
Definition Revoked : Z := 1.
Definition Unknown : Z := 2.

(** The fields of [ocsp.Response] the program reads.  Both are plain
    [int]s: a response has a [RevocationReason] whatever its status. *)
Record Response : Type := {
  Status : Z;
  RevocationReason : Z
}.

(** The status of the certificate as an OCSP response carries it
    (RFC 6960, CertStatus): only a revoked status has revocation data,
    and in it the reason is optional. *)
Inductive CertStatus : Type :=
| good
| revoked (revocationReason : option Z)
| unknown.

(** The revocation reason the response supplies, if it supplies one. *)
Definition supplied_reason (s : CertStatus) : option Z :=
  match s with
  | revoked r => r
  | good | unknown => None
  end.

(** How [ocsp.ParseResponse] fills [Status] and [RevocationReason]:
    the reason is copied for a revoked status, and the field keeps the
    zero value of an [int] when the response supplies no reason. *)
Definition response_of (s : CertStatus) : Response :=
  match s with
  | good => {| Status := Good; RevocationReason := 0 |}
  | unknown => {| Status := Unknown; RevocationReason := 0 |}
  | revoked (Some r) => {| Status := Revoked; RevocationReason := r |}
  | revoked None => {| Status := Revoked; RevocationReason := 0 |}
  end.

End ocsp.

(** ** The program's environment *)

(** The command-line flags after [flag.Parse()].  [respURL], [nostaple]
    and [dump] are pointers the program compares with [nil] before it
    reads them: [None] is [nil]. *)
Record Flags : Type := {
  destURL : string;
  certPath : string;
  respURL : option string;
  nostaple : option bool;
  dump : option bool
}.

(** What the outside world answers to the program's calls. *)
Record World : Type := {
  (** [http.Get(url)], and [client.Get(url)] of a client with a
      [Timeout] in seconds *)
  http_Get : option Z -> string -> result http.Response;
  (** the error of [http.NewRequest("POST", url, body)], if any *)
  http_NewRequest_POST : string -> option error;
  (** [client.Do(req)] for the POST of a body to a URL *)
  client_Do_POST : string -> list byte -> result http.Response;
  (** [ocsp.CreateRequest(ee, issuer, nil)] *)
  ocsp_CreateRequest : x509.Certificate -> x509.Certificate -> result (list byte);
  (** [ocsp.ParseResponse(response, issuer)] *)
  ocsp_ParseResponse : list byte -> x509.Certificate -> result ocsp.Response;
  (** the error of [pem.Encode(os.Stdout, block)], if any *)
  pem_Encode_Stdout : pem.Block -> option error;
  (** [pem.Decode(data)]: the first block, [None] being [nil] *)
  pem_Decode : list byte -> option pem.Block;
  (** [x509.ParseCertificate(der)] *)
  x509_ParseCertificate : list byte -> result x509.Certificate;
  (** [ioutil.ReadFile(path)] *)
  ioutil_ReadFile : string -> result (list byte)
}.

(** ** Effects *)

(** What the program does that can be seen from outside. *)
Inductive event : Type :=
| LogPrintf (format : string) (args : list (fmt_arg error))
| LogPrintln (line : string)
| StdoutPEM (block : pem.Block)
| HttpGet (url : string)
| HttpPost (url contentType : string) (body : list byte)
| ReadFile (path : string).

(** How a call ends: it returns, it panics (a Go runtime error), or the
    process exits ([log.Fatalf] calls [os.Exit(1)]). *)
Inductive outcome (A : Type) : Type :=
| Returns (a : A)
| Panics (index length : nat)   (* index out of range [index] with length [length] *)
| Exits (code : Z).
Arguments Returns {A} a.
Arguments Panics {A} index length.
Arguments Exits {A} code.

(** A computation: the events it performs, in order, and how it ends. *)
Definition M (A : Type) : Type := list event * outcome A.

Definition ret {A : Type} (a : A) : M A := ([], Returns a).

Definition bind {A B : Type} (m : M A) (k : A -> M B) : M B :=
  match m with
  | (t, Returns a) => let (t', o) := k a in ((t ++ t')%list, o)
  | (t, Panics i n) => (t, Panics i n)
  | (t, Exits c) => (t, Exits c)
  end.

Declare Scope go_scope.
Delimit Scope go_scope with go.
Notation "x <- m ;; k" := (bind m (fun x => k))
  (at level 100, m at next level, right associativity) : go_scope.
Notation "m ;;; k" := (bind m (fun _ => k))
  (at level 100, right associativity) : go_scope.
Local Open Scope go_scope.

Definition emit (e : event) : M unit := ([e], Returns tt).

Definition trace {A : Type} (m : M A) : list event := fst m.
Definition result_of {A : Type} (m : M A) : outcome A := snd m.

(** [log.Printf], [log.Println] and [log.Fatalf]. *)
Definition log_Printf (format : string) (args : list (fmt_arg error)) : M unit :=
  emit (LogPrintf format args).
Definition log_Println (line : string) : M unit :=
  emit (LogPrintln line).
Definition log_Fatalf {A : Type} (format : string) (args : list (fmt_arg error)) : M A :=
  ([LogPrintf format args], Exits 1).

(** The index expression [s[i]]: a runtime panic when [i] is out of
    range. *)
Definition index {A : Type} (s : list A) (i : nat) : M A :=
  match nth_error s i with
  | Some x => ret x
  | None => ([], Panics i (List.length s))
  end.

(** A flag pointer that is not [nil] and points to [true]:
    [p != nil && *p]. *)
Definition is_set (p : option bool) : bool :=
  match p with
  | Some b => b
  | None => false
  end.

(** ** The program *)

(** [fmt.Sprintf("%d", n)] for an [int]: decimal digits, with a minus
    sign before a negative number. *)
Definition Sprintf_d (n : Z) : string := NilZero.string_of_int (Z.to_int n).

Section Program.
Context {asn1 : Asn1}.
Variable flags : Flags.
Variable world : World.

(** [func grabIssuerCert(connState *tls.ConnectionState) *x509.Certificate] *)
Definition grabIssuerCert (connState : tls.ConnectionState) : M x509.Certificate :=
  chain <- index (tls.VerifiedChains connState) 0 ;;
  index chain 1.

(** [func grabServerCert(connState *tls.ConnectionState) *x509.Certificate] *)
Definition grabServerCert (connState : tls.ConnectionState) : M x509.Certificate :=
  chain <- index (tls.VerifiedChains connState) 0 ;;
  index chain 0.

(** The [if dump != nil && *dump { ... }] blocks of [manualCheck] and
    [parseResponse]: the bytes are written to standard output as a PEM
    block; the result is the error of [pem.Encode], which the caller
    returns. *)
Definition dumpBlock (type : string) (bytes : list byte) : M (option error) :=
  if is_set (dump flags)
  then
    let block := {| pem.Type_ := type; pem.Bytes := bytes |} in
    emit (StdoutPEM block) ;;;
    ret (pem_Encode_Stdout world block)
  else ret None.

(** The [switch resp.RevocationReason] of [parseResponse], lines
    175-199. *)
Definition reason_of (RevocationReason : Z) : string :=
  match RevocationReason with
  | 0 => "Unspecified"
  | 1 => "KeyCompromise"
  | 2 => "CACompromise"
  | 3 => "AffiliationChanged"
  | 4 => "Superseded"
  | 5 => "CessationOfOperation"
  | 6 => "CertificateHold"
  | 8 => "RemoveFromCRL"
  | 9 => "PrivilegeWithdrawn"
  | 10 => "AACompromise"
  | _ => "unexpected value: " ++ Sprintf_d RevocationReason
  end.

(** [func parseResponse(response []byte, issuer *x509.Certificate) error] *)
Definition parseResponse (response : list byte) (issuer : x509.Certificate)
  : M (option error) :=
  err <- dumpBlock "OCSP Response" response ;;
  match err with
  | Some err => ret (Some err)
  | None =>
    match ocsp_ParseResponse world response issuer with
    | Err err => ret (Some (Errorf "error parsing response: %v" [ArgErr (Some err)]))
    | Ok resp =>
      (if ocsp.Status resp =? ocsp.Good
       then log_Println "Certificate Status Good."
       else if ocsp.Status resp =? ocsp.Unknown
       then log_Println "Certificate Status Unknown"
       else log_Println "Certificate Status Revoked") ;;;
      let reason := reason_of (ocsp.RevocationReason resp) in
      log_Printf "Reason: %s\n" [ArgString reason] ;;;
      ret None
    end
  end.

(** The choice of [ocspURL] in [manualCheck], lines 106-111. *)
Definition manualCheck_ocspURL (ee : x509.Certificate) : M string :=
  match respURL flags with
  | Some u => if negb (u =? "")%string then ret u else index (x509.OCSPServer ee) 0
  | None => index (x509.OCSPServer ee) 0
  end.

(** [func manualCheck(ee *x509.Certificate, issuer *x509.Certificate) error] *)
Definition manualCheck (ee issuer : x509.Certificate) : M (option error) :=
  ocspURL <- manualCheck_ocspURL ee ;;
  log_Printf "Server: %v\n" [ArgString (x509.CommonName ee)] ;;;
  log_Printf "Issuer: %v\n" [ArgString (x509.CommonName issuer)] ;;;
  log_Printf "OCSP URL: %v\n" [ArgString ocspURL] ;;;
  match ocsp_CreateRequest world ee issuer with
  | Err err => ret (Some (Errorf "error creating ocsp request: %v" [ArgErr (Some err)]))
  | Ok ocspReq =>
    err <- dumpBlock "OCSP Request" ocspReq ;;
    match err with
    | Some err => ret (Some err)
    | None =>
      match http_NewRequest_POST world ocspURL with
      | Some err =>
        ret (Some (Errorf "error creating http post request: %v" [ArgErr (Some err)]))
      | None =>
        emit (HttpPost ocspURL "application/ocsp-request" ocspReq) ;;;
        match client_Do_POST world ocspURL ocspReq with
        | Err err =>
          ret (Some (Errorf "error sending post request: %v" [ArgErr (Some err)]))
        | Ok resp =>
          (* io.Copy(buf, resp.Body): its error is dropped *)
          parseResponse (fst (http.Body resp)) issuer
        end
      end
    end
  end.

(** [func stapledCheck(ee *x509.Certificate, issuer *x509.Certificate, staple []byte) error] *)
Definition stapledCheck (ee issuer : x509.Certificate) (staple : list byte)
  : M (option error) :=
  log_Printf "Server: %v\n" [ArgString (x509.CommonName ee)] ;;;
  log_Printf "Issuer: %v\n" [ArgString (x509.CommonName issuer)] ;;;
  parseResponse staple issuer.

(** [func processURL() error] *)
Definition processURL : M (option error) :=
  emit (HttpGet (destURL flags)) ;;;
  match http_Get world None (destURL flags) with
  | Err err => ret (Some err)
  | Ok resp =>
    match http.TLS resp with
    | None => ret (Some (Errorf "no connection state" []))
    | Some connState =>
      server <- grabServerCert connState ;;
      issuer <- grabIssuerCert connState ;;
      match tls.OCSPResponse connState with
      | None =>
        log_Println "remote check" ;;;
        manualCheck server issuer
      | Some staple =>
        if is_set (nostaple flags)
        then
          log_Println "remote check" ;;;
          manualCheck server issuer
        else
          log_Println "stapled check" ;;;
          stapledCheck server issuer staple
      end
    end
  end.

(** The [for _, ext := range endEntity.Extensions] loop of
    [processFile], lines 254-265: the value of [aiaURL] after the loop,
    or the error the loop returns. *)
Fixpoint processFile_scan (extensions : list x509.Extension) (aiaURL : option string)
  : result (option string) :=
  match extensions with
  | [] => Ok aiaURL
  | ext :: extensions' =>
    if Equal (x509.Id ext) authorityInfoAccess
    then
      match decodeAIA (x509.Value ext) with
      | (_, Some err) => Err err
      | (url, None) =>
        if (0 <? String.length url)%nat
        then processFile_scan extensions' (Some url)
        else processFile_scan extensions' aiaURL
      end
    else processFile_scan extensions' aiaURL
  end.

(** [func processFile() error] *)
Definition processFile : M (option error) :=
  emit (ReadFile (certPath flags)) ;;;
  match ioutil_ReadFile world (certPath flags) with
  | Err err => log_Fatalf "Error reading file: %v" [ArgErr (Some err)]
  | Ok certPEM =>
    match pem_Decode world certPEM with
    | None => log_Fatalf "failed to parse certificate PEM" []
    | Some block =>
      match x509_ParseCertificate world (pem.Bytes block) with
      | Err err => log_Fatalf "failed to parse certificate: %v\n" [ArgErr (Some err)]
      | Ok endEntity =>
        match processFile_scan (x509.Extensions endEntity) None with
        | Err err => ret (Some err)
        | Ok None =>
          (* [err] is the nil error of [x509.ParseCertificate] *)
          ret (Some (Errorf "No AIA url, and previous error was %s" [ArgErr None]))
        | Ok (Some aiaURL) =>
          log_Printf "Fetching issuer certificate from %s" [ArgString aiaURL] ;;;
          emit (HttpGet aiaURL) ;;;
          match http_Get world (Some 10) aiaURL with
          | Err err => ret (Some err)
          | Ok response =>
            match http.Body response with
            | (_, Some err) => ret (Some err)
            | (certBytes, None) =>
              match x509_ParseCertificate world certBytes with
              | Err err => ret (Some err)
              | Ok fetchedCert => manualCheck endEntity fetchedCert
              end
            end
          end
        end
      end
    end
  end.

(** [func main()] *)
Definition main : M unit :=
  if ((certPath flags =? "")%string && (destURL flags =? "")%string)%bool
  then log_Fatalf "must provide a url or cert\n" []
  else
    (if negb (destURL flags =? "")%string
     then
       if negb (String.prefix "https" (destURL flags))
       then log_Fatalf "must provide a https url\n" []
       else
         err <- processURL ;;
         match err with
         | Some err => log_Fatalf "Error processing URL: %v\n" [ArgErr (Some err)]
         | None => ret tt
         end
     else ret tt) ;;;
    if negb (certPath flags =? "")%string
    then
      err <- processFile ;;
      match err with
      | Some err => log_Fatalf "Error processing file: %v\n" [ArgErr (Some err)]
      | None => ret tt
      end
    else ret tt.

End Program.

(** ** A DER decoder

    An instance of the decoding capability, after the decoder of Go's
    encoding/asn1 ([parseBase128Int], [parseTagAndLength],
    [parseObjectIdentifier], and [parseField] at the types [RawValue]
    and [ObjectIdentifier]).  Offsets are positions in the input. *)

Module der.

Definition int_of_byte (b : byte) : Z := Z.of_N (Byte.to_N b).

Definition MaxInt32 : Z := 2 ^ 31 - 1.

(** The loop of [parseBase128Int] over the bytes from [offset] on. *)
Fixpoint parseBase128Int_loop (bytes : list byte) (offset : nat) (shifted ret64 : Z)
  : result (Z * nat) :=
  match bytes with
  | [] => Err (SyntaxError "truncated base 128 integer")
  | b :: bytes' =>
    if shifted =? 5 then Err (StructuralError "base 128 integer too large")
    else
      let ret64 := Z.shiftl ret64 7 in
      if (shifted =? 0) && (int_of_byte b =? 0x80)
      then Err (SyntaxError "integer is not minimally encoded")
      else
        let ret64 := Z.lor ret64 (Z.land (int_of_byte b) 0x7f) in
        let offset := S offset in
        if Z.land (int_of_byte b) 0x80 =? 0
        then
          if ret64 >? MaxInt32
          then Err (StructuralError "base 128 integer too large")
          else Ok (ret64, offset)
        else parseBase128Int_loop bytes' offset (shifted + 1) ret64
  end.

Definition parseBase128Int (bytes : list byte) (initOffset : nat) : result (Z * nat) :=
  parseBase128Int_loop (skipn initOffset bytes) initOffset 0 0.

Record tagAndLength : Type := {
  class : Z;
  tag : Z;
  length : Z;
  isCompound : bool
}.

(** The loop over the [numBytes] length bytes of the long form. *)
Fixpoint parseLength_loop (numBytes : nat) (bytes : list byte) (offset : nat) (length : Z)
  : result (Z * nat) :=
  match numBytes with
  | O => Ok (length, offset)
  | S numBytes' =>
    match nth_error bytes offset with
    | None => Err (SyntaxError "truncated tag or length")
    | Some b =>
      let offset := S offset in
      if length >=? 2 ^ 23 then Err (StructuralError "length too large")
      else
        let length := Z.lor (Z.shiftl length 8) (int_of_byte b) in
        if length =? 0
        then Err (StructuralError "superfluous leading zeros in length")
        else parseLength_loop numBytes' bytes offset length
    end
  end.

Definition parseTagAndLength (bytes : list byte) (initOffset : nat)
  : result (tagAndLength * nat) :=
  match nth_error bytes initOffset with
  | None => Err (errors_New "asn1: internal error in parseTagAndLength")
  | Some b =>
    let offset := S initOffset in
    let class := Z.shiftr (int_of_byte b) 6 in
    let isCompound := Z.land (int_of_byte b) 0x20 =? 0x20 in
    let tag := Z.land (int_of_byte b) 0x1f in
    match
      (if tag =? 0x1f
       then
         match parseBase128Int bytes offset with
         | Err e => Err e
         | Ok (tag, offset) =>
           if tag <? 0x1f then Err (SyntaxError "non-minimal tag") else Ok (tag, offset)
         end
       else Ok (tag, offset))
    with
    | Err e => Err e
    | Ok (tag, offset) =>
      match nth_error bytes offset with
      | None => Err (SyntaxError "truncated tag or length")
      | Some b =>
        let offset := S offset in
        if Z.land (int_of_byte b) 0x80 =? 0
        then
          Ok ({| class := class; tag := tag; length := Z.land (int_of_byte b) 0x7f;
                 isCompound := isCompound |}, offset)
        else
          let numBytes := Z.land (int_of_byte b) 0x7f in
          if numBytes =? 0 then Err (SyntaxError "indefinite length found (not DER)")
          else
            match parseLength_loop (Z.to_nat numBytes) bytes offset 0 with
            | Err e => Err e
            | Ok (length, offset) =>
              if length <? 0x80 then Err (StructuralError "non-minimal length")
              else
                Ok ({| class := class; tag := tag; length := length;
                       isCompound := isCompound |}, offset)
            end
      end
    end
  end.

Definition invalidLength (offset : nat) (length : Z) (sliceLength : nat) : bool :=
  (Z.of_nat offset + length <? Z.of_nat offset)
  || (Z.of_nat offset + length >? Z.of_nat sliceLength).

(** The slice expression [bytes[lo:hi]]. *)
Definition slice (bytes : list byte) (lo hi : nat) : list byte :=
  firstn (hi - lo) (skipn lo bytes).

(** [asn1.Unmarshal(b, &v)] for [v] a [RawValue]: any tag matches. *)
Definition Unmarshal_RawValue (b : list byte) : result (RawValue * list byte) :=
  if (List.length b =? 0)%nat then Err (SyntaxError "sequence truncated")
  else
    match parseTagAndLength b 0 with
    | Err e => Err e
    | Ok (t, offset) =>
      if invalidLength offset (length t) (List.length b)
      then Err (SyntaxError "data truncated")
      else
        let offset' := (offset + Z.to_nat (length t))%nat in
        Ok ({| Class := class t; Tag := tag t; IsCompound := isCompound t;
               Bytes := slice b offset offset'; FullBytes := slice b 0 offset' |},
            skipn offset' b)
    end.

(** The sub-identifiers of [parseObjectIdentifier]: its calls of
    [parseBase128Int] one after the other, until the bytes end. *)
Fixpoint parseSubidentifiers (bytes : list byte) (shifted ret64 : Z) : result (list Z) :=
  match bytes with
  | [] =>
    if shifted =? 0 then Ok [] else Err (SyntaxError "truncated base 128 integer")
  | b :: bytes' =>
    if shifted =? 5 then Err (StructuralError "base 128 integer too large")
    else
      let ret64 := Z.shiftl ret64 7 in
      if (shifted =? 0) && (int_of_byte b =? 0x80)
      then Err (SyntaxError "integer is not minimally encoded")
      else
        let ret64 := Z.lor ret64 (Z.land (int_of_byte b) 0x7f) in
        if Z.land (int_of_byte b) 0x80 =? 0
        then
          if ret64 >? MaxInt32
          then Err (StructuralError "base 128 integer too large")
          else
            match parseSubidentifiers bytes' 0 0 with
            | Err e => Err e
            | Ok vs => Ok (ret64 :: vs)
            end
        else parseSubidentifiers bytes' (shifted + 1) ret64
  end.

Definition parseObjectIdentifier (bytes : list byte) : result ObjectIdentifier :=
  if (List.length bytes =? 0)%nat then Err (SyntaxError "zero length OBJECT IDENTIFIER")
  else
    match parseSubidentifiers bytes 0 0 with
    | Err e => Err e
    | Ok [] => Err (SyntaxError "truncated base 128 integer")
    | Ok (v :: s) =>
      if v <? 80 then Ok (v / 40 :: v mod 40 :: s) else Ok (2 :: v - 80 :: s)
    end.

(** [asn1.Unmarshal(b, &v)] for [v] an [ObjectIdentifier]: the element
    must be a primitive of the universal class with tag 6.  The message
    of the library's error for another element goes on with the
    expected tag, the element and the offset, formatted by [fmt]; only
    its fixed beginning is kept here. *)
Definition Unmarshal_ObjectIdentifier (b : list byte)
  : result (ObjectIdentifier * list byte) :=
  if (List.length b =? 0)%nat then Err (SyntaxError "sequence truncated")
  else
    match parseTagAndLength b 0 with
    | Err e => Err e
    | Ok (t, offset) =>
      if negb (class t =? 0) || negb (tag t =? 6) || isCompound t
      then Err (StructuralError "tags don't match")
      else if invalidLength offset (length t) (List.length b)
      then Err (SyntaxError "data truncated")
      else
        let offset' := (offset + Z.to_nat (length t))%nat in
        match parseObjectIdentifier (slice b offset offset') with
        | Err e => Err e
        | Ok oid => Ok (oid, skipn offset' b)
        end
    end.

End der.


(** ** The structure of an AIA extension

    The vocabulary of the properties of [decodeAIA]: what it means for
    bytes to begin with an AccessDescription, in terms of the decoding
    capability. *)

Section AIA.
Context {asn1 : Asn1}.

(** A universal constructed SEQUENCE: class 0, tag 16, constructed. *)
Definition is_sequence (v : RawValue) : bool :=
  IsCompound v && (Tag v =? 16) && (Class v =? 0).

(** AccessDescription ::= SEQUENCE { accessMethod OBJECT IDENTIFIER,
    accessLocation GeneralName } *)
Record AccessDescription : Type := {
  accessMethod : ObjectIdentifier;
  accessLocation : RawValue
}.

(** The bytes begin with a well-formed AccessDescription: a constructed
    SEQUENCE whose content is an OBJECT IDENTIFIER followed by exactly
    one more value.  The result is the description and the bytes after
    it. *)
Definition read_description (rest : list byte) : option (AccessDescription * list byte) :=
  match Unmarshal_RawValue rest with
  | Ok (inside, rest') =>
    if is_sequence inside
    then
      match Unmarshal_ObjectIdentifier (Bytes inside) with
      | Ok (oid, body) =>
        match Unmarshal_RawValue body with
        | Ok (location, []) =>
          Some ({| accessMethod := oid; accessLocation := location |}, rest')
        | _ => None
        end
      | Err _ => None
      end
    else None
  | Err _ => None
  end.

(** The bytes begin with [n] well-formed AccessDescriptions: these
    descriptions, in order, and the bytes after them. *)
Fixpoint read_descriptions (n : nat) (rest : list byte)
  : option (list AccessDescription * list byte) :=
  match n with
  | O => Some ([], rest)
  | S n' =>
    match read_description rest with
    | Some (ad, rest') =>
      match read_descriptions n' rest' with
      | Some (ads, tail) => Some (ad :: ads, tail)
      | None => None
      end
    | None => None
    end
  end.

(** The content of the outer SEQUENCE of a well-formed extension: the
    input is one universal constructed SEQUENCE with nothing after
    it. *)
Definition outer_sequence (ext : list byte) : option (list byte) :=
  match Unmarshal_RawValue ext with
  | Ok (seq, []) => if is_sequence seq then Some (Bytes seq) else None
  | _ => None
  end.

(** A well-formed AIA extension with [n] AccessDescriptions. *)
Definition well_formed_AIA (n : nat) (ext : list byte) : option (list AccessDescription) :=
  match outer_sequence ext with
  | Some content =>
    match read_descriptions n content with
    | Some (ads, []) => Some ads
    | _ => None
    end
  | None => None
  end.

(** The access method of the description is CA-Issuers. *)
Definition is_CA_Issuers (ad : AccessDescription) : bool :=
  Equal (accessMethod ad) aiaIssuer.

(** What is wrong with the child at the head of [rest], and the error
    [decodeAIA] gives for it. *)
Inductive bad_child (rest : list byte) : error -> Prop :=
| child_unreadable (e : error) :
    Unmarshal_RawValue rest = Err e ->
    bad_child rest (Errorf "Error unmarshaling %s" [ArgErr (Some e)])
| child_not_sequence (inside : RawValue) (rest' : list byte) :
    Unmarshal_RawValue rest = Ok (inside, rest') ->
    is_sequence inside = false ->
    bad_child rest (StructuralError "bad SAN sequence")
| method_unreadable (inside : RawValue) (rest' : list byte) (e : error) :
    Unmarshal_RawValue rest = Ok (inside, rest') ->
    is_sequence inside = true ->
    Unmarshal_ObjectIdentifier (Bytes inside) = Err e ->
    bad_child rest (Errorf "Error unmarshaling %s" [ArgErr (Some e)])
| location_unreadable (inside : RawValue) (rest' : list byte)
    (oid : ObjectIdentifier) (body : list byte) (e : error) :
    Unmarshal_RawValue rest = Ok (inside, rest') ->
    is_sequence inside = true ->
    Unmarshal_ObjectIdentifier (Bytes inside) = Ok (oid, body) ->
    Unmarshal_RawValue body = Err e ->
    bad_child rest (Errorf "Error unmarshaling %s" [ArgErr (Some e)])
| description_trailing (inside : RawValue) (rest' : list byte)
    (oid : ObjectIdentifier) (body : list byte) (location : RawValue)
    (trailing : list byte) :
    Unmarshal_RawValue rest = Ok (inside, rest') ->
    is_sequence inside = true ->
    Unmarshal_ObjectIdentifier (Bytes inside) = Ok (oid, body) ->
    Unmarshal_RawValue body = Ok (location, trailing) ->
    trailing <> [] ->
    bad_child rest (Errorf "x509: trailing data after AIA extension" []).

(** What is wrong with an extension whose defect the scan of
    [decodeAIA] meets, and the error it gives: the outer element is
    unreadable, has bytes after it or is not a SEQUENCE; or, after [n]
    well-formed descriptions none of which is CA-Issuers, there are
    bytes left and the child they begin with is bad. *)
Inductive malformed (ext : list byte) : error -> Prop :=
| outer_unreadable (e : error) :
    Unmarshal_RawValue ext = Err e ->
    malformed ext (Errorf "Error unmarshaling %s" [ArgErr (Some e)])
| outer_trailing (seq : RawValue) (rest : list byte) :
    Unmarshal_RawValue ext = Ok (seq, rest) ->
    rest <> [] ->
    malformed ext (Errorf "x509: trailing data after X.509 extension" [])
| outer_not_sequence (seq : RawValue) :
    Unmarshal_RawValue ext = Ok (seq, []) ->
    is_sequence seq = false ->
    malformed ext (StructuralError "bad SAN sequence")
| child_bad (content : list byte) (n : nat) (before : list AccessDescription)
    (rest : list byte) (e : error) :
    outer_sequence ext = Some content ->
    read_descriptions n content = Some (before, rest) ->
    existsb is_CA_Issuers before = false ->
    rest <> [] ->
    bad_child rest e ->
    malformed ext e.

End AIA.

(** ** The vocabulary of the properties of the scenarios *)

Definition is_HttpPost (e : event) : bool :=
  match e with
  | HttpPost _ _ _ => true
  | _ => false
  end.

(** A network fetch: an HTTP GET or POST. *)
Definition is_network (e : event) : bool :=
  match e with
  | HttpGet _ | HttpPost _ _ _ => true
  | _ => false
  end.

Definition is_ReadFile (e : event) : bool :=
  match e with
  | ReadFile _ => true
  | _ => false
  end.

Definition is_HttpGet (e : event) : bool :=
  match e with
  | HttpGet _ => true
  | _ => false
  end.

(** A PEM block written to standard output. *)
Definition is_StdoutPEM (e : event) : bool :=
  match e with
  | StdoutPEM _ => true
  | _ => false
  end.

(** A line of the log. *)
Definition is_log (e : event) : bool :=
  match e with
  | LogPrintf _ _ | LogPrintln _ => true
  | _ => false
  end.

(** The computation performs no event of the kind [p]. *)
Definition avoids {A : Type} (p : event -> bool) (m : M A) : Prop :=
  forallb (fun e => negb (p e)) (trace m) = true.

(** The events of [dumpBlock]. *)
Definition dump_events (flags : Flags) (type : string) (bytes : list byte) : list event :=
  if is_set (dump flags)
  then [StdoutPEM {| pem.Type_ := type; pem.Bytes := bytes |}]
  else [].

(** The extension is an Authority Information Access extension:
    [ext.Id.Equal(authorityInfoAccess)]. *)
Definition is_AIA (ext : x509.Extension) : bool :=
  Equal (x509.Id ext) authorityInfoAccess.

(** The three log lines with which [manualCheck] begins. *)
Definition manualCheck_logs (ee issuer : x509.Certificate) (ocspURL : string)
  : list event :=
  [LogPrintf "Server: %v\n" [ArgString (x509.CommonName ee)];
   LogPrintf "Issuer: %v\n" [ArgString (x509.CommonName issuer)];
   LogPrintf "OCSP URL: %v\n" [ArgString ocspURL]].

(** The request of [manualCheck] can be sent: there is a responder
    URL, the request is built, its dump (if any) is written, and the
    POST is made. *)
Definition can_post (flags : Flags) (world : World) (ee issuer : x509.Certificate)
  (ocspURL : string) (ocspReq : list byte) : Prop :=
  (respURL flags = Some ocspURL /\ ocspURL <> ""
   \/ (respURL flags = None \/ respURL flags = Some "")
      /\ nth_error (x509.OCSPServer ee) 0 = Some ocspURL)
  /\ ocsp_CreateRequest world ee issuer = Ok ocspReq
  /\ (is_set (dump flags) = true ->
      pem_Encode_Stdout world {| pem.Type_ := "OCSP Request"; pem.Bytes := ocspReq |}
      = None)
  /\ http_NewRequest_POST world ocspURL = None.

(** The table of revocation reasons (RFC 5280, CRLReason); 7 is not
    used. *)
Definition reason_table : list (Z * string) :=
  [(0, "Unspecified"); (1, "KeyCompromise"); (2, "CACompromise");
   (3, "AffiliationChanged"); (4, "Superseded"); (5, "CessationOfOperation");
   (6, "CertificateHold"); (8, "RemoveFromCRL"); (9, "PrivilegeWithdrawn");
   (10, "AACompromise")].

Fixpoint lookup (n : Z) (table : list (Z * string)) : option string :=
  match table with
  | [] => None
  | (k, label) :: table' => if n =? k then Some label else lookup n table'
  end.

(** The label of a numeric reason by the table, and the diagnostic for
    a number that is not in it. *)
Definition reason_label (n : Z) : string :=
  match lookup n reason_table with
  | Some label => label
  | None => "unexpected value: " ++ Sprintf_d n
  end.

(** The number a label stands for: the number of the table for a label
    of the table, and the number after "unexpected value: "
    otherwise. *)
Definition reason_number (label : string) : option Z :=
  match find (fun entry => (snd entry =? label)%string) reason_table with
  | Some (n, _) => Some n
  | None =>
    option_map Z.of_int
      (NilZero.int_of_string (substring 18 (String.length label - 18) label))
  end.

(** ** Sample encodings

    DER encodings used to run the definitions above with the decoder
    [DER]. *)

Module Samples.

(** OBJECT IDENTIFIER 1.3.6.1.5.5.7.48.2 (CA-Issuers) *)
Definition oid_CA_Issuers : list byte :=
  [x06; x08; x2b; x06; x01; x05; x05; x07; x30; x02].

(** OBJECT IDENTIFIER 1.3.6.1.5.5.7.48.1 (OCSP) *)
Definition oid_OCSP : list byte :=
  [x06; x08; x2b; x06; x01; x05; x05; x07; x30; x01].

Definition issuer_url : string := "http://example.com/issuer.crt".

(** [6] IMPLICIT IA5String "http://example.com/issuer.crt" (29 bytes) *)
Definition uri_issuer : list byte := [x86; x1d] ++ list_byte_of_string issuer_url.

(** [6] IMPLICIT IA5String "b" *)
Definition uri_b : list byte := [x86; x01; x62].

(** INTEGER 0 *)
Definition integer_0 : list byte := [x02; x01; x00].

(** SEQUENCE { CA-Issuers, URI "http://example.com/issuer.crt" } *)
Definition ad_CA_Issuers : list byte := [x30; x29] ++ oid_CA_Issuers ++ uri_issuer.

(** SEQUENCE { OCSP, URI "b" } *)
Definition ad_OCSP : list byte := [x30; x0d] ++ oid_OCSP ++ uri_b.

(** SEQUENCE { CA-Issuers, INTEGER 0 } *)
Definition ad_CA_Issuers_integer : list byte := [x30; x0d] ++ oid_CA_Issuers ++ integer_0.

(** SEQUENCE { OCSP, URI "b", INTEGER 0 }: a third element *)
Definition ad_OCSP_trailing : list byte :=
  [x30; x10] ++ oid_OCSP ++ uri_b ++ integer_0.

(** SEQUENCE { } *)
Definition aia_empty : list byte := [x30; x00].

(** SEQUENCE { ad_CA_Issuers } *)
Definition aia_issuer : list byte := [x30; x2b] ++ ad_CA_Issuers.

(** SEQUENCE { ad_OCSP } *)
Definition aia_ocsp : list byte := [x30; x0f] ++ ad_OCSP.

(** SEQUENCE { ad_OCSP, ad_CA_Issuers, INTEGER 0 }: the third child is
    not an AccessDescription *)
Definition aia_ocsp_issuer_integer : list byte :=
  [x30; x3d] ++ ad_OCSP ++ ad_CA_Issuers ++ integer_0.

(** SEQUENCE { ad_OCSP, ad_CA_Issuers_integer } *)
Definition aia_ocsp_issuer_integer_location : list byte :=
  [x30; x1e] ++ ad_OCSP ++ ad_CA_Issuers_integer.

(** SEQUENCE { ad_CA_Issuers, INTEGER 0 }: the second child is not a
    SEQUENCE *)
Definition aia_issuer_integer : list byte :=
  [x30; x2e] ++ ad_CA_Issuers ++ integer_0.

(** SEQUENCE { ad_CA_Issuers, ad_OCSP_trailing }: the second
    AccessDescription has a third element *)
Definition aia_issuer_trailing : list byte :=
  [x30; x3d] ++ ad_CA_Issuers ++ ad_OCSP_trailing.

(** SEQUENCE { ad_OCSP, INTEGER 0 } *)
Definition aia_ocsp_integer : list byte := [x30; x12] ++ ad_OCSP ++ integer_0.

(** SEQUENCE { ad_OCSP, ad_OCSP_trailing } *)
Definition aia_ocsp_trailing : list byte := [x30; x21] ++ ad_OCSP ++ ad_OCSP_trailing.

(** SET { } *)
Definition set_empty : list byte := [x31; x00].

(** SEQUENCE { } followed by one more byte *)
Definition aia_empty_trailing : list byte := [x30; x00; x00].

(** The descriptions of the sample encodings, as [DER] decodes them. *)
Definition description_OCSP_b : AccessDescription :=
  {| accessMethod := aiaOCSP;
     accessLocation := {| Class := 2; Tag := 6; IsCompound := false;
                          Bytes := [x62]; FullBytes := uri_b |} |}.

Definition description_CA_Issuers_uri : AccessDescription :=
  {| accessMethod := aiaIssuer;
     accessLocation := {| Class := 2; Tag := 6; IsCompound := false;
                          Bytes := list_byte_of_string issuer_url;
                          FullBytes := uri_issuer |} |}.

Definition description_CA_Issuers_integer : AccessDescription :=
  {| accessMethod := aiaIssuer;
     accessLocation := {| Class := 0; Tag := 2; IsCompound := false;
                          Bytes := [x00]; FullBytes := integer_0 |} |}.

(** A certificate that names no OCSP responder. *)
Definition leaf_without_responder : x509.Certificate :=
  {| x509.CommonName := "leaf.example.com"; x509.Extensions := [];
     x509.OCSPServer := [] |}.

(** A certificate that names a responder. *)
Definition leaf : x509.Certificate :=
  {| x509.CommonName := "leaf.example.com"; x509.Extensions := [];
     x509.OCSPServer := ["http://ocsp.example.com"; "http://ocsp2.example.com"] |}.

Definition ca : x509.Certificate :=
  {| x509.CommonName := "Example CA"; x509.Extensions := [];
     x509.OCSPServer := [] |}.

(** A certificate with two extensions, none of them the AIA. *)
Definition leaf_without_AIA : x509.Certificate :=
  {| x509.CommonName := "leaf.example.com";
     x509.Extensions :=
       [ {| x509.Id := [2; 5; 29; 15]; x509.Critical := true; x509.Value := [x03; x02; x05; xa0] |};
         {| x509.Id := [2; 5; 29; 19]; x509.Critical := true; x509.Value := [x30; x00] |} ];
     x509.OCSPServer := ["http://ocsp.example.com"] |}.

(** A certificate whose AIA extension names an OCSP responder only. *)
Definition leaf_AIA_ocsp_only : x509.Certificate :=
  {| x509.CommonName := "leaf.example.com";
     x509.Extensions :=
       [ {| x509.Id := authorityInfoAccess; x509.Critical := false;
            x509.Value := aia_ocsp |} ];
     x509.OCSPServer := ["b"] |}.

(** The flags of [-url https://example.com -pem cert.pem]. *)
Definition flags_both : Flags :=
  {| destURL := "https://example.com"; certPath := "cert.pem";
     respURL := Some ""; nostaple := Some false; dump := Some false |}.

(** The flags of [-url https://example.com]. *)
Definition flags_url : Flags :=
  {| destURL := "https://example.com"; certPath := "";
     respURL := Some ""; nostaple := Some false; dump := Some false |}.

(** The flags of [-url https://example.com -nostaple]. *)
Definition flags_url_nostaple : Flags :=
  {| destURL := "https://example.com"; certPath := "";
     respURL := Some ""; nostaple := Some true; dump := Some false |}.

(** The flags of [-pem cert.pem]. *)
Definition flags_pem : Flags :=
  {| destURL := ""; certPath := "cert.pem";
     respURL := Some ""; nostaple := Some false; dump := Some false |}.

Definition refused : error := errors_New "connection refused".

(** A world: the connection to a server gives the verified chains
    [chains] and the staple [staple]; a responder answers a POST with
    the bytes [x01]; every OCSP response is decoded as [parsed]; the
    file holds the certificate [file_cert]; any other GET fails. *)
Definition world_of (chains : list (list x509.Certificate)) (staple : option (list byte))
  (parsed : ocsp.Response) (file_cert : x509.Certificate) : World :=
  {| http_Get := fun timeout url =>
       if (url =? "https://example.com")%string
       then Ok {| http.TLS := Some {| tls.VerifiedChains := chains;
                                      tls.OCSPResponse := staple |};
                  http.Body := ([], None) |}
       else Err refused;
     http_NewRequest_POST := fun _ => None;
     client_Do_POST := fun _ _ => Ok {| http.TLS := None; http.Body := ([x01], None) |};
     ocsp_CreateRequest := fun _ _ => Ok [x30; x00];
     ocsp_ParseResponse := fun _ _ => Ok parsed;
     pem_Encode_Stdout := fun _ => None;
     pem_Decode := fun data => Some {| pem.Type_ := "CERTIFICATE"; pem.Bytes := data |};
     x509_ParseCertificate := fun _ => Ok file_cert;
     ioutil_ReadFile := fun _ => Ok [x30; x00] |}.

(** A world in which no server can be reached. *)
Definition world_offline (file_cert : x509.Certificate) : World :=
  {| http_Get := fun _ _ => Err refused;
     http_NewRequest_POST := fun _ => None;
     client_Do_POST := fun _ _ => Err refused;
     ocsp_CreateRequest := fun _ _ => Ok [x30; x00];
     ocsp_ParseResponse := fun _ _ => Err (errors_New "ocsp: no response");
     pem_Encode_Stdout := fun _ => None;
     pem_Decode := fun data => Some {| pem.Type_ := "CERTIFICATE"; pem.Bytes := data |};
     x509_ParseCertificate := fun _ => Ok file_cert;
     ioutil_ReadFile := fun _ => Ok [x30; x00] |}.

(** [6] IMPLICIT IA5String "http://ocsp.example.com" (23 bytes) *)
Definition uri_ocsp : list byte :=
  [x86; x17] ++ list_byte_of_string "http://ocsp.example.com".

(** SEQUENCE { OCSP, URI "http://ocsp.example.com" } *)
Definition ad_OCSP_url : list byte := [x30; x23] ++ oid_OCSP ++ uri_ocsp.

(** SEQUENCE { ad_OCSP_url, ad_CA_Issuers } *)
Definition aia_ocsp_issuer : list byte := [x30; x50] ++ ad_OCSP_url ++ ad_CA_Issuers.

(** [1] IMPLICIT IA5String "a@b.c" (an rfc822Name) *)
Definition mail_a_b_c : list byte := [x81; x05; x61; x40; x62; x2e; x63].

(** SEQUENCE { CA-Issuers, rfc822Name "a@b.c" } *)
Definition ad_CA_Issuers_mail : list byte := [x30; x11] ++ oid_CA_Issuers ++ mail_a_b_c.

(** SEQUENCE { ad_OCSP_url, ad_CA_Issuers_mail } *)
Definition aia_issuer_mail : list byte :=
  [x30; x38] ++ ad_OCSP_url ++ ad_CA_Issuers_mail.

(** A key usage extension and a basic constraints extension. *)
Definition extension_keyUsage : x509.Extension :=
  {| x509.Id := [2; 5; 29; 15]; x509.Critical := true; x509.Value := [x03; x02; x05; xa0] |}.

Definition extension_basicConstraints : x509.Extension :=
  {| x509.Id := [2; 5; 29; 19]; x509.Critical := true; x509.Value := [x30; x00] |}.

(** A certificate whose AIA extension, between a key usage and a basic
    constraints extension, has the OCSP responder
    "http://ocsp.example.com" and a CA-Issuers description with an
    rfc822Name for location. *)
Definition leaf_AIA_mail : x509.Certificate :=
  {| x509.CommonName := "leaf.example.com";
     x509.Extensions :=
       [ extension_keyUsage;
         {| x509.Id := authorityInfoAccess; x509.Critical := false;
            x509.Value := aia_issuer_mail |};
         extension_basicConstraints ];
     x509.OCSPServer := ["http://ocsp.example.com"] |}.

(** A certificate with a key usage extension, an AIA extension with the
    OCSP responder "http://ocsp.example.com" and the CA-Issuers URL
    "http://example.com/issuer.crt", and a basic constraints
    extension. *)
Definition leaf_AIA_issuer : x509.Certificate :=
  {| x509.CommonName := "leaf.example.com";
     x509.Extensions :=
       [ extension_keyUsage;
         {| x509.Id := authorityInfoAccess; x509.Critical := false;
            x509.Value := aia_ocsp_issuer |};
         extension_basicConstraints ];
     x509.OCSPServer := ["http://ocsp.example.com"] |}.

(** A world in which every GET is answered with the bytes [x30; x01],
    which parse as the certificate [ca], and the file holds the
    certificate [file_cert]; every POST is answered, and every OCSP
    response is decoded as a good one. *)
Definition world_online (file_cert : x509.Certificate) : World :=
  {| http_Get := fun _ _ => Ok {| http.TLS := None; http.Body := ([x30; x01], None) |};
     http_NewRequest_POST := fun _ => None;
     client_Do_POST := fun _ _ => Ok {| http.TLS := None; http.Body := ([x01], None) |};
     ocsp_CreateRequest := fun _ _ => Ok [x30; x00];
     ocsp_ParseResponse := fun _ _ => Ok (ocsp.response_of ocsp.good);
     pem_Encode_Stdout := fun _ => None;
     pem_Decode := fun data => Some {| pem.Type_ := "CERTIFICATE"; pem.Bytes := data |};
     x509_ParseCertificate := fun der =>
       match der with
       | [x30; x00] => Ok file_cert
       | _ => Ok ca
       end;
     ioutil_ReadFile := fun _ => Ok [x30; x00] |}.

(** A world without the file. *)
Definition world_no_file : World :=
  {| http_Get := fun _ _ => Err refused;
     http_NewRequest_POST := fun _ => None;
     client_Do_POST := fun _ _ => Err refused;
     ocsp_CreateRequest := fun _ _ => Ok [x30; x00];
     ocsp_ParseResponse := fun _ _ => Err (errors_New "ocsp: no response");
     pem_Encode_Stdout := fun _ => None;
     pem_Decode := fun _ => None;
     x509_ParseCertificate := fun _ => Err (errors_New "x509: malformed certificate");
     ioutil_ReadFile := fun _ => Err (errors_New "open cert.pem: no such file or directory") |}.

Definition no_such_file : error :=
  errors_New "open cert.pem: no such file or directory".

(** A world in which the server staples a good response on a chain of
    two certificates, and the file does not exist. *)
Definition world_staple_no_file : World :=
  {| http_Get := fun timeout url =>
       if (url =? "https://example.com")%string
       then Ok {| http.TLS := Some {| tls.VerifiedChains := [[leaf; ca]];
                                      tls.OCSPResponse := Some [x01] |};
                  http.Body := ([], None) |}
       else Err refused;
     http_NewRequest_POST := fun _ => None;
     client_Do_POST := fun _ _ => Err refused;
     ocsp_CreateRequest := fun _ _ => Ok [x30; x00];
     ocsp_ParseResponse := fun _ _ => Ok (ocsp.response_of ocsp.good);
     pem_Encode_Stdout := fun _ => None;
     pem_Decode := fun _ => None;
     x509_ParseCertificate := fun _ => Err (errors_New "x509: malformed certificate");
     ioutil_ReadFile := fun _ => Err no_such_file |}.

(** The flags of [-url http://example.com -pem cert.pem]. *)
Definition flags_http : Flags :=
  {| destURL := "http://example.com"; certPath := "cert.pem";
     respURL := Some ""; nostaple := Some false; dump := Some false |}.

End Samples.

Import Samples.

(** * Properties *)

(** ** The DER decoder is a decoding capability *)

Lemma parseLength_loop_offset (numBytes : nat) :
  forall bytes offset len len' offset',
    der.parseLength_loop numBytes bytes offset len = Ok (len', offset') ->
    (offset <= offset')%nat.
Proof.
  induction numBytes as [|n IH]; intros bytes offset len len' offset';
    cbn [der.parseLength_loop].
  - intros H; injection H as _ <-. apply Nat.le_refl.
  - destruct (nth_error bytes offset); [|discriminate].
    destruct (len >=? 2 ^ 23); [discriminate|].
    destruct (_ =? 0); [discriminate|].
    intros H; apply IH in H. lia.
Qed.

Lemma parseTagAndLength_offset (bytes : list byte) (initOffset : nat) t offset :
  der.parseTagAndLength bytes initOffset = Ok (t, offset) -> (1 <= offset)%nat.
Proof.
  unfold der.parseTagAndLength.
  destruct (nth_error bytes initOffset); [|discriminate].
  match goal with |- match ?x with _ => _ end = _ -> _ => destruct x as [[tg off]|e] end;
    [|discriminate].
  destruct (nth_error bytes off); [|discriminate].
  destruct (Z.land _ 0x80 =? 0).
  - intros H; injection H as _ <-. lia.
  - destruct (_ =? 0); [discriminate|].
    destruct (der.parseLength_loop _ _ _ _) as [[l o]|e] eqn:E; [|discriminate].
    destruct (l <? 0x80); [discriminate|].
    intros H; injection H as _ <-.
    apply parseLength_loop_offset in E. lia.
Qed.

Lemma der_Unmarshal_RawValue_consumes (b : list byte) v rest :
  der.Unmarshal_RawValue b = Ok (v, rest) -> (List.length rest < List.length b)%nat.
Proof.
  unfold der.Unmarshal_RawValue.
  destruct (List.length b =? 0)%nat eqn:E0; [discriminate|].
  apply Nat.eqb_neq in E0.
  destruct (der.parseTagAndLength b 0) as [[t offset]|e] eqn:E; [|discriminate].
  destruct (der.invalidLength _ _ _); [discriminate|].
  intros H; injection H as _ <-.
  apply parseTagAndLength_offset in E.
  rewrite length_skipn. lia.
Qed.

#[export] Instance DER : Asn1 := {|
  Unmarshal_RawValue := der.Unmarshal_RawValue;
  Unmarshal_ObjectIdentifier := der.Unmarshal_ObjectIdentifier;
  Unmarshal_RawValue_consumes := der_Unmarshal_RawValue_consumes
|}.

(** ** decodeAIA *)

Section DecodeAIA_properties.
Context {asn1 : Asn1}.

Lemma Equal_eq (oi other : ObjectIdentifier) :
  Equal oi other = true <-> oi = other.
Proof.
  revert other; induction oi as [|x oi IH]; intros [|y other]; simpl;
    try (split; [discriminate | congruence]); try tauto.
  rewrite andb_true_iff, Z.eqb_eq, IH. split.
  - intros [-> ->]; reflexivity.
  - intros H; injection H as -> ->; split; reflexivity.
Qed.

(** The guard of lines 51 and 64 is the negation of [is_sequence]. *)
Lemma not_sequence_guard (v : RawValue) :
  negb (IsCompound v) || negb (Tag v =? 16) || negb (Class v =? 0)
  = negb (is_sequence v).
Proof.
  unfold is_sequence.
  destruct (IsCompound v), (Tag v =? 16), (Class v =? 0); reflexivity.
Qed.

(** The loop, unfolded once. *)
Lemma decodeAIA_loop_eq (rest : list byte) :
  decodeAIA_loop rest =
  match rest with
  | [] => ("", None)
  | _ :: _ =>
    match decodeAIA_body rest with
    | Return r => r
    | Continue rest' => decodeAIA_loop rest'
    end
  end.
Proof.
  destruct rest as [|b bs]; simp decodeAIA_loop; [reflexivity|].
  generalize (inspect (decodeAIA_body (b :: bs))).
  intros [[r|rest'] H]; simpl; rewrite H; reflexivity.
Qed.

(** Nothing is decoded from no bytes. *)
Lemma Unmarshal_RawValue_nil : forall v rest, Unmarshal_RawValue [] <> Ok (v, rest).
Proof.
  intros v rest H. apply Unmarshal_RawValue_consumes in H. simpl in H. lia.
Qed.

Lemma decodeAIA_loop_body (rest : list byte) (v : RawValue) (rest' : list byte) :
  Unmarshal_RawValue rest = Ok (v, rest') ->
  decodeAIA_loop rest =
  match decodeAIA_body rest with
  | Return r => r
  | Continue rest' => decodeAIA_loop rest'
  end.
Proof.
  intros H. rewrite decodeAIA_loop_eq.
  destruct rest; [|reflexivity].
  exfalso; exact (Unmarshal_RawValue_nil _ _ H).
Qed.

Lemma read_description_inv (rest : list byte) (ad : AccessDescription) (rest' : list byte) :
  read_description rest = Some (ad, rest') ->
  exists inside body,
    Unmarshal_RawValue rest = Ok (inside, rest') /\
    is_sequence inside = true /\
    Unmarshal_ObjectIdentifier (Bytes inside) = Ok (accessMethod ad, body) /\
    Unmarshal_RawValue body = Ok (accessLocation ad, []).
Proof.
  unfold read_description.
  destruct (Unmarshal_RawValue rest) as [[inside r]|e] eqn:Hi; [|discriminate].
  destruct (is_sequence inside) eqn:Hs; [|discriminate].
  destruct (Unmarshal_ObjectIdentifier _) as [[oid body]|e] eqn:Ho; [|discriminate].
  destruct (Unmarshal_RawValue body) as [[loc [|t ts]]|e] eqn:Hl; try discriminate.
  intros H; injection H as <- <-. simpl.
  exists inside, body. repeat split; assumption.
Qed.

(** One pass over a well-formed description. *)
Lemma decodeAIA_body_description (rest : list byte) (ad : AccessDescription)
  (rest' : list byte) :
  read_description rest = Some (ad, rest') ->
  decodeAIA_body rest =
  if is_CA_Issuers ad
  then
    if Tag (accessLocation ad) =? 6
    then Return (string_of_list_byte (Bytes (accessLocation ad)), None)
    else Return ("", Some (Errorf "Unknown type for AIA Issuer extension: %+v"
                                  [ArgRawValue (accessLocation ad)]))
  else Continue rest'.
Proof.
  intros H. apply read_description_inv in H.
  destruct H as (inside & body & H1 & H2 & H3 & H4).
  unfold decodeAIA_body, is_CA_Issuers.
  rewrite H1, not_sequence_guard, H2, H3, H4. reflexivity.
Qed.

(** A description that is not CA-Issuers is passed over. *)
Lemma decodeAIA_loop_skip (rest : list byte) (ad : AccessDescription) (rest' : list byte) :
  read_description rest = Some (ad, rest') ->
  is_CA_Issuers ad = false ->
  decodeAIA_loop rest = decodeAIA_loop rest'.
Proof.
  intros H Hn.
  pose proof (read_description_inv _ _ _ H) as (inside & body & H1 & _).
  rewrite (decodeAIA_loop_body _ _ _ H1), (decodeAIA_body_description _ _ _ H), Hn.
  reflexivity.
Qed.

(** The scan ends at a CA-Issuers description. *)
Lemma decodeAIA_loop_hit (rest : list byte) (ad : AccessDescription) (rest' : list byte) :
  read_description rest = Some (ad, rest') ->
  is_CA_Issuers ad = true ->
  decodeAIA_loop rest =
  if Tag (accessLocation ad) =? 6
  then (string_of_list_byte (Bytes (accessLocation ad)), None)
  else ("", Some (Errorf "Unknown type for AIA Issuer extension: %+v"
                         [ArgRawValue (accessLocation ad)])).
Proof.
  intros H Hy.
  pose proof (read_description_inv _ _ _ H) as (inside & body & H1 & _).
  rewrite (decodeAIA_loop_body _ _ _ H1), (decodeAIA_body_description _ _ _ H), Hy.
  destruct (Tag _ =? 6); reflexivity.
Qed.

(** Descriptions none of which is CA-Issuers are all passed over. *)
Lemma decodeAIA_loop_skips (n : nat) :
  forall (rest : list byte) (before : list AccessDescription) (rest' : list byte),
    read_descriptions n rest = Some (before, rest') ->
    existsb is_CA_Issuers before = false ->
    decodeAIA_loop rest = decodeAIA_loop rest'.
Proof.
  induction n as [|n IH]; intros rest before rest'; cbn [read_descriptions].
  - intros H _; injection H as _ <-; reflexivity.
  - destruct (read_description rest) as [[ad r1]|] eqn:Hd; [|discriminate].
    destruct (read_descriptions n r1) as [[ads tail]|] eqn:Hds; [|discriminate].
    intros H; injection H as <- <-. cbn [existsb].
    intros Hn; apply orb_false_iff in Hn as [Hn1 Hn2].
    rewrite (decodeAIA_loop_skip _ _ _ Hd Hn1).
    exact (IH _ _ _ Hds Hn2).
Qed.

Lemma outer_sequence_inv (ext content : list byte) :
  outer_sequence ext = Some content ->
  exists seq,
    Unmarshal_RawValue ext = Ok (seq, []) /\ is_sequence seq = true /\ Bytes seq = content.
Proof.
  unfold outer_sequence.
  destruct (Unmarshal_RawValue ext) as [[seq [|t ts]]|e] eqn:Hu; try discriminate.
  destruct (is_sequence seq) eqn:Hs; [|discriminate].
  intros H; injection H as <-. exists seq; repeat split; assumption.
Qed.

(** On a well-formed outer SEQUENCE [decodeAIA] is its loop over the
    content. *)
Lemma decodeAIA_outer_sequence (ext content : list byte) :
  outer_sequence ext = Some content ->
  decodeAIA ext = decodeAIA_loop content.
Proof.
  intros H. apply outer_sequence_inv in H as (seq & H1 & H2 & <-).
  unfold decodeAIA. rewrite H1, not_sequence_guard, H2. reflexivity.
Qed.

Lemma decodeAIA_loop_bad_child (rest : list byte) (e : error) :
  rest <> [] ->
  bad_child rest e ->
  decodeAIA_loop rest = ("", Some e).
Proof.
  intros Hne Hbad. rewrite decodeAIA_loop_eq.
  destruct rest as [|b bs]; [congruence|].
  unfold decodeAIA_body.
  destruct Hbad as [e0 H1|inside r H1 H2|inside r e0 H1 H2 H3
                    |inside r oid body e0 H1 H2 H3 H4
                    |inside r oid body loc tr H1 H2 H3 H4 H5];
    rewrite H1; try reflexivity; rewrite not_sequence_guard, H2; try reflexivity;
    cbn [negb]; rewrite H3; try reflexivity; rewrite H4; try reflexivity.
  destruct tr; [congruence|reflexivity].
Qed.

End DecodeAIA_properties.

Section DecodeAIA_claims.
Context {asn1 : Asn1}.

Lemma existsb_is_CA_Issuers_false (ads : list AccessDescription) :
  Forall (fun ad => accessMethod ad <> aiaIssuer) ads ->
  existsb is_CA_Issuers ads = false.
Proof.
  induction 1 as [|ad ads Had _ IH]; simpl; [reflexivity|].
  rewrite IH, orb_false_r. unfold is_CA_Issuers.
  destruct (Equal (accessMethod ad) aiaIssuer) eqn:E; [|reflexivity].
  apply Equal_eq in E. contradiction.
Qed.

(** C4.  Let [ext] be one outer SEQUENCE whose content begins with [n]
    well-formed AccessDescriptions, none of them CA-Issuers, followed
    by a well-formed AccessDescription [ad] whose access method is
    CA-Issuers (1.3.6.1.5.5.7.48.2), followed by any bytes [later].
    If the tag of the access location of [ad] is 6, [decodeAIA]
    returns the bytes of the location as a string and no error; if
    not, it returns no URL and the "Unknown type" error for that
    location.  The result does not depend on [later]: what follows the
    first CA-Issuers description is not examined. *)
Theorem decodeAIA_first_CA_Issuers
  (ext content : list byte) (n : nat) (before : list AccessDescription)
  (rest : list byte) (ad : AccessDescription) (later : list byte) :
  outer_sequence ext = Some content ->
  read_descriptions n content = Some (before, rest) ->
  Forall (fun ad => accessMethod ad <> aiaIssuer) before ->
  read_description rest = Some (ad, later) ->
  accessMethod ad = aiaIssuer ->
  (Tag (accessLocation ad) = 6 ->
   decodeAIA ext = (string_of_list_byte (Bytes (accessLocation ad)), None))
  /\
  (Tag (accessLocation ad) <> 6 ->
   decodeAIA ext =
   ("", Some (Errorf "Unknown type for AIA Issuer extension: %+v"
                     [ArgRawValue (accessLocation ad)]))).
Proof.
  intros Hout Hbefore Hnone Had Hmethod.
  assert (Hloop : decodeAIA ext =
                  if Tag (accessLocation ad) =? 6
                  then (string_of_list_byte (Bytes (accessLocation ad)), None)
                  else ("", Some (Errorf "Unknown type for AIA Issuer extension: %+v"
                                         [ArgRawValue (accessLocation ad)]))).
  { rewrite (decodeAIA_outer_sequence _ _ Hout).
    rewrite (decodeAIA_loop_skips _ _ _ _ Hbefore (existsb_is_CA_Issuers_false _ Hnone)).
    apply (decodeAIA_loop_hit _ _ _ Had).
    unfold is_CA_Issuers. apply Equal_eq. exact Hmethod. }
  split; intros Htag; rewrite Hloop.
  - apply Z.eqb_eq in Htag. rewrite Htag. reflexivity.
  - apply Z.eqb_neq in Htag. rewrite Htag. reflexivity.
Qed.

(** C5.  For a well-formed AIA extension (one outer SEQUENCE whose
    content is exactly [n] well-formed AccessDescriptions, [n] being
    any number, zero included) none of whose AccessDescriptions has the
    access method CA-Issuers, [decodeAIA] returns the empty URL and no
    error. *)
Theorem decodeAIA_no_CA_Issuers
  (ext : list byte) (n : nat) (ads : list AccessDescription) :
  well_formed_AIA n ext = Some ads ->
  Forall (fun ad => accessMethod ad <> aiaIssuer) ads ->
  decodeAIA ext = ("", None).
Proof.
  unfold well_formed_AIA.
  destruct (outer_sequence ext) as [content|] eqn:Hout; [|discriminate].
  destruct (read_descriptions n content) as [[ads' [|t ts]]|] eqn:Hads; try discriminate.
  intros H Hnone; injection H as ->.
  rewrite (decodeAIA_outer_sequence _ _ Hout).
  rewrite (decodeAIA_loop_skips _ _ _ _ Hads (existsb_is_CA_Issuers_false _ Hnone)).
  rewrite decodeAIA_loop_eq. reflexivity.
Qed.

(** C6, amended.  [decodeAIA] returns no URL and an error when the
    outer element cannot be decoded, has bytes after it, or is not a
    universal constructed SEQUENCE; and when, after well-formed
    AccessDescriptions none of which is CA-Issuers, the next child
    cannot be decoded, is not a constructed SEQUENCE, does not hold an
    OBJECT IDENTIFIER and one more value, or has bytes after these two
    elements.  The error is the one [malformed] names.  (Children
    after the first CA-Issuers description are not examined.) *)
Theorem decodeAIA_malformed (ext : list byte) (e : error) :
  malformed ext e -> decodeAIA ext = ("", Some e).
Proof.
  intros [e0 H|seq rest H Hne|seq H Hs|content n before rest e0 Hout Hbefore Hnone Hne Hbad].
  - unfold decodeAIA. rewrite H. reflexivity.
  - unfold decodeAIA. rewrite H. destruct rest; [congruence|reflexivity].
  - unfold decodeAIA. rewrite H, not_sequence_guard, Hs. reflexivity.
  - rewrite (decodeAIA_outer_sequence _ _ Hout).
    rewrite (decodeAIA_loop_skips _ _ _ _ Hbefore Hnone).
    apply decodeAIA_loop_bad_child; assumption.
Qed.

End DecodeAIA_claims.


Lemma description_OCSP_b_method : accessMethod description_OCSP_b <> aiaIssuer.
Proof. discriminate. Qed.

(** C4 at sample encodings: an OCSP description, the CA-Issuers
    description with the URI "http://example.com/issuer.crt", then a
    child that is not an AccessDescription; and an OCSP description,
    then a CA-Issuers description whose location is an INTEGER. *)
Lemma decodeAIA_first_CA_Issuers_witness :
  decodeAIA aia_ocsp_issuer_integer = ("http://example.com/issuer.crt", None)
  /\
  decodeAIA aia_ocsp_issuer_integer_location =
  ("", Some (Errorf "Unknown type for AIA Issuer extension: %+v"
                    [ArgRawValue (accessLocation description_CA_Issuers_integer)])).
Proof.
  split.
  - apply (decodeAIA_first_CA_Issuers
             aia_ocsp_issuer_integer (ad_OCSP ++ ad_CA_Issuers ++ integer_0) 1
             [description_OCSP_b] (ad_CA_Issuers ++ integer_0)
             description_CA_Issuers_uri integer_0).
    + vm_compute; reflexivity.
    + vm_compute; reflexivity.
    + repeat constructor. exact description_OCSP_b_method.
    + vm_compute; reflexivity.
    + reflexivity.
    + reflexivity.
  - apply (decodeAIA_first_CA_Issuers
             aia_ocsp_issuer_integer_location (ad_OCSP ++ ad_CA_Issuers_integer) 1
             [description_OCSP_b] ad_CA_Issuers_integer
             description_CA_Issuers_integer []).
    + vm_compute; reflexivity.
    + vm_compute; reflexivity.
    + repeat constructor. exact description_OCSP_b_method.
    + vm_compute; reflexivity.
    + reflexivity.
    + simpl. lia.
Defined.

(** C5 at sample encodings: the empty SEQUENCE, and a SEQUENCE with one
    OCSP description. *)
Lemma decodeAIA_no_CA_Issuers_witness :
  decodeAIA aia_empty = ("", None) /\ decodeAIA aia_ocsp = ("", None).
Proof.
  split.
  - apply (decodeAIA_no_CA_Issuers aia_empty 0 []).
    + vm_compute; reflexivity.
    + constructor.
  - apply (decodeAIA_no_CA_Issuers aia_ocsp 1 [description_OCSP_b]).
    + vm_compute; reflexivity.
    + repeat constructor. exact description_OCSP_b_method.
Defined.

(** C6 as stated fails.  The outer SEQUENCE of [aia_issuer_integer] has
    two children, and the second is an INTEGER, not a constructed
    SEQUENCE; the second AccessDescription of [aia_issuer_trailing] has
    a third element after its two.  In both the first child is a
    CA-Issuers description with a URI, and [decodeAIA] returns that URL
    and no error. *)
Lemma decodeAIA_later_children_not_examined :
  (exists seq child1 rest1 child2,
      Unmarshal_RawValue aia_issuer_integer = Ok (seq, []) /\
      is_sequence seq = true /\
      Unmarshal_RawValue (Bytes seq) = Ok (child1, rest1) /\
      Unmarshal_RawValue rest1 = Ok (child2, []) /\
      is_sequence child2 = false /\
      decodeAIA aia_issuer_integer = ("http://example.com/issuer.crt", None))
  /\
  (exists seq child1 rest1 child2 oid body location,
      Unmarshal_RawValue aia_issuer_trailing = Ok (seq, []) /\
      is_sequence seq = true /\
      Unmarshal_RawValue (Bytes seq) = Ok (child1, rest1) /\
      Unmarshal_RawValue rest1 = Ok (child2, []) /\
      is_sequence child2 = true /\
      Unmarshal_ObjectIdentifier (Bytes child2) = Ok (oid, body) /\
      Unmarshal_RawValue body = Ok (location, integer_0) /\
      decodeAIA aia_issuer_trailing = ("http://example.com/issuer.crt", None)).
Proof.
  split.
  - do 4 eexists. repeat split; try (vm_compute; reflexivity).
  - do 7 eexists. repeat split; try (vm_compute; reflexivity).
Qed.

(** C6, amended, at sample encodings: a SET; a SEQUENCE followed by a
    byte; an OCSP description followed by an INTEGER; an OCSP
    description followed by a description with three elements. *)
Lemma decodeAIA_malformed_witness :
  decodeAIA set_empty = ("", Some (StructuralError "bad SAN sequence"))
  /\ decodeAIA aia_empty_trailing
     = ("", Some (Errorf "x509: trailing data after X.509 extension" []))
  /\ decodeAIA aia_ocsp_integer = ("", Some (StructuralError "bad SAN sequence"))
  /\ decodeAIA aia_ocsp_trailing
     = ("", Some (Errorf "x509: trailing data after AIA extension" [])).
Proof.
  split; [|split; [|split]]; apply decodeAIA_malformed.
  - eapply outer_not_sequence; vm_compute; reflexivity.
  - eapply outer_trailing; [vm_compute; reflexivity | discriminate].
  - eapply (child_bad _ _ 1 [description_OCSP_b] integer_0).
    + vm_compute; reflexivity.
    + vm_compute; reflexivity.
    + reflexivity.
    + discriminate.
    + eapply child_not_sequence; vm_compute; reflexivity.
  - eapply (child_bad _ _ 1 [description_OCSP_b] ad_OCSP_trailing).
    + vm_compute; reflexivity.
    + vm_compute; reflexivity.
    + reflexivity.
    + discriminate.
    + eapply description_trailing; try (vm_compute; reflexivity). discriminate.
Defined.

(** ** Computations and their traces *)

Lemma bind_returns {A B : Type} (t : list event) (a : A) (k : A -> M B) :
  bind (t, Returns a) k = ((t ++ trace (k a))%list, result_of (k a)).
Proof. unfold bind, trace, result_of. destruct (k a); reflexivity. Qed.

Lemma bind_ret_l {A B : Type} (a : A) (k : A -> M B) : bind (ret a) k = k a.
Proof. unfold bind, ret. destruct (k a); reflexivity. Qed.

Lemma bind_trace {A B : Type} (m : M A) (k : A -> M B) :
  trace (bind m k) =
  (trace m ++ match result_of m with
              | Returns a => trace (k a)
              | _ => []
              end)%list.
Proof.
  destruct m as [t [a|i n|c]]; simpl; [|rewrite app_nil_r; reflexivity ..].
  destruct (k a); reflexivity.
Qed.

Lemma M_eta {A : Type} (m : M A) : m = (trace m, result_of m).
Proof. destruct m; reflexivity. Qed.

Lemma avoids_ret {A : Type} (p : event -> bool) (a : A) : avoids p (ret a).
Proof. reflexivity. Qed.

Lemma avoids_bind {A B : Type} (p : event -> bool) (m : M A) (k : A -> M B) :
  avoids p m -> (forall a, avoids p (k a)) -> avoids p (bind m k).
Proof.
  unfold avoids. intros Hm Hk. rewrite bind_trace, forallb_app, Hm.
  destruct (result_of m); [apply Hk | reflexivity | reflexivity].
Qed.

Lemma avoids_index {A : Type} (p : event -> bool) (s : list A) (i : nat) :
  avoids p (index s i).
Proof. unfold index. destruct (nth_error s i); reflexivity. Qed.

Lemma avoids_In {A : Type} (p : event -> bool) (m : M A) (e : event) :
  avoids p m -> p e = true -> ~ In e (trace m).
Proof.
  unfold avoids. intros Hm He Hin.
  rewrite forallb_forall in Hm. apply Hm in Hin. rewrite He in Hin. discriminate.
Qed.

(** Goals [avoids p m] for [m] built from [bind], [ret], [index],
    single events and case distinctions. *)
Ltac avoids_step :=
  match goal with
  | |- avoids _ (bind _ _) => apply avoids_bind; [|intros ?]
  | |- avoids _ (ret _) => apply avoids_ret
  | |- avoids _ (index _ _) => apply avoids_index
  | |- avoids _ (match ?x with _ => _ end) => destruct x
  | |- avoids _ (if ?x then _ else _) => destruct x
  | |- avoids _ _ => reflexivity
  end.

(** ** parseResponse *)

Section ParseResponse_properties.
Variable flags : Flags.
Variable world : World.

(** The switch of [parseResponse] is the table. *)
Lemma reason_of_table (n : Z) : reason_of n = reason_label n.
Proof.
  destruct n as [|p|p]; [reflexivity| |reflexivity].
  do 4 (try destruct p as [p|p|]); reflexivity.
Qed.

Lemma reason_of_Unspecified (n : Z) : reason_of n = "Unspecified" <-> n = 0.
Proof.
  split; [|intros ->; reflexivity].
  destruct n as [|p|p]; [reflexivity| |discriminate].
  do 4 (try destruct p as [p|p|]); discriminate.
Qed.

Lemma dumpBlock_passes (type : string) (bytes : list byte) :
  (is_set (dump flags) = true ->
   pem_Encode_Stdout world {| pem.Type_ := type; pem.Bytes := bytes |} = None) ->
  dumpBlock flags world type bytes = (dump_events flags type bytes, Returns None).
Proof.
  unfold dumpBlock, dump_events. destruct (is_set (dump flags)); [|reflexivity].
  intros H. rewrite (H eq_refl). reflexivity.
Qed.

(** [parseResponse] on a response that [ocsp.ParseResponse] accepts. *)
Lemma parseResponse_parsed (response : list byte) (issuer : x509.Certificate)
  (resp : ocsp.Response) :
  (is_set (dump flags) = true ->
   pem_Encode_Stdout world {| pem.Type_ := "OCSP Response"; pem.Bytes := response |}
   = None) ->
  ocsp_ParseResponse world response issuer = Ok resp ->
  parseResponse flags world response issuer =
  ((dump_events flags "OCSP Response" response
    ++ [LogPrintln (if ocsp.Status resp =? ocsp.Good then "Certificate Status Good."
                    else if ocsp.Status resp =? ocsp.Unknown
                    then "Certificate Status Unknown"
                    else "Certificate Status Revoked");
        LogPrintf "Reason: %s\n" [ArgString (reason_of (ocsp.RevocationReason resp))]])%list,
   Returns None).
Proof.
  intros Hdump Hparse. unfold parseResponse.
  rewrite (dumpBlock_passes _ _ Hdump), bind_returns, Hparse.
  destruct (ocsp.Status resp =? ocsp.Good); [|destruct (ocsp.Status resp =? ocsp.Unknown)];
    reflexivity.
Qed.

Lemma avoids_dumpBlock (p : event -> bool) (type : string) (bytes : list byte) :
  (forall b, p (StdoutPEM b) = false) ->
  avoids p (dumpBlock flags world type bytes).
Proof.
  intros Hp. unfold dumpBlock. destruct (is_set (dump flags)); [|reflexivity].
  unfold avoids; simpl. rewrite Hp. reflexivity.
Qed.

Lemma avoids_parseResponse (p : event -> bool) (response : list byte)
  (issuer : x509.Certificate) :
  (forall b, p (StdoutPEM b) = false) ->
  (forall l, p (LogPrintln l) = false) ->
  (forall f a, p (LogPrintf f a) = false) ->
  avoids p (parseResponse flags world response issuer).
Proof.
  intros H1 H2 H3. unfold parseResponse.
  apply avoids_bind; [apply avoids_dumpBlock; exact H1|].
  intros [err|]; [apply avoids_ret|].
  destruct (ocsp_ParseResponse world response issuer) as [resp|err]; [|apply avoids_ret].
  unfold avoids, log_Println, log_Printf.
  destruct (ocsp.Status resp =? ocsp.Good); [|destruct (ocsp.Status resp =? ocsp.Unknown)];
    simpl; rewrite H2, H3; reflexivity.
Qed.

(** C7.  When [ocsp.ParseResponse] accepts the response,
    [parseResponse] logs, as its last event, the line "Reason: " with
    the label of the numeric revocation reason by the table
    Unspecified=0, KeyCompromise=1, CACompromise=2,
    AffiliationChanged=3, Superseded=4, CessationOfOperation=5,
    CertificateHold=6, RemoveFromCRL=8, PrivilegeWithdrawn=9,
    AACompromise=10, and with "unexpected value: N" for every other
    number N (7 among them); it then returns no error: it neither
    panics nor exits. *)
Theorem parseResponse_reason (response : list byte) (issuer : x509.Certificate)
  (resp : ocsp.Response) :
  (is_set (dump flags) = true ->
   pem_Encode_Stdout world {| pem.Type_ := "OCSP Response"; pem.Bytes := response |}
   = None) ->
  ocsp_ParseResponse world response issuer = Ok resp ->
  let N := ocsp.RevocationReason resp in
  exists before,
    parseResponse flags world response issuer =
    ((before ++ [LogPrintf "Reason: %s\n"
                   [ArgString (match lookup N reason_table with
                               | Some label => label
                               | None => "unexpected value: " ++ Sprintf_d N
                               end)]])%list,
     Returns None).
Proof.
  intros Hdump Hparse N.
  rewrite (parseResponse_parsed _ _ _ Hdump Hparse).
  fold N. rewrite reason_of_table. unfold reason_label.
  eexists (_ ++ [_])%list. rewrite <- app_assoc. reflexivity.
Qed.

(** C8, amended.  When [ocsp.ParseResponse] accepts the response,
    [parseResponse] logs a reason whatever the status of the response
    is, and the reason logged is "Unspecified" exactly when the
    [RevocationReason] field of the parsed response is 0. *)
Theorem parseResponse_Unspecified (response : list byte) (issuer : x509.Certificate)
  (resp : ocsp.Response) :
  (is_set (dump flags) = true ->
   pem_Encode_Stdout world {| pem.Type_ := "OCSP Response"; pem.Bytes := response |}
   = None) ->
  ocsp_ParseResponse world response issuer = Ok resp ->
  exists before reason,
    parseResponse flags world response issuer =
    ((before ++ [LogPrintf "Reason: %s\n" [ArgString reason]])%list, Returns None)
    /\ (reason = "Unspecified" <-> ocsp.RevocationReason resp = 0).
Proof.
  intros Hdump Hparse.
  rewrite (parseResponse_parsed _ _ _ Hdump Hparse).
  eexists (_ ++ [_])%list, _. rewrite <- app_assoc. split; [reflexivity|].
  apply reason_of_Unspecified.
Qed.

End ParseResponse_properties.


(** C7 at a sample: a revoked response with the reason 7, and one with
    the reason 1. *)
Lemma parseResponse_reason_witness :
  (exists before,
      parseResponse flags_url
        (world_of [[leaf; ca]] None (ocsp.response_of (ocsp.revoked (Some 7))) leaf)
        [x01] ca
      = ((before ++ [LogPrintf "Reason: %s\n" [ArgString "unexpected value: 7"]])%list,
         Returns None))
  /\
  (exists before,
      parseResponse flags_url
        (world_of [[leaf; ca]] None (ocsp.response_of (ocsp.revoked (Some 1))) leaf)
        [x01] ca
      = ((before ++ [LogPrintf "Reason: %s\n" [ArgString "KeyCompromise"]])%list,
         Returns None)).
Proof.
  split.
  - apply (parseResponse_reason flags_url
             (world_of [[leaf; ca]] None (ocsp.response_of (ocsp.revoked (Some 7))) leaf)
             [x01] ca (ocsp.response_of (ocsp.revoked (Some 7)))).
    + discriminate.
    + reflexivity.
  - apply (parseResponse_reason flags_url
             (world_of [[leaf; ca]] None (ocsp.response_of (ocsp.revoked (Some 1))) leaf)
             [x01] ca (ocsp.response_of (ocsp.revoked (Some 1)))).
    + discriminate.
    + reflexivity.
Defined.

(** C8 as stated fails.  A good response supplies no revocation
    reason; [ocsp.ParseResponse] hands it over with the status [Good]
    and the [RevocationReason] 0, and [parseResponse] reports it with
    the reason "Unspecified". *)
Lemma parseResponse_good_reports_Unspecified :
  ocsp.supplied_reason ocsp.good = None
  /\ ocsp.Status (ocsp.response_of ocsp.good) = ocsp.Good
  /\ parseResponse flags_url
       (world_of [[leaf; ca]] (Some [x01]) (ocsp.response_of ocsp.good) leaf) [x01] ca
     = ([LogPrintln "Certificate Status Good.";
         LogPrintf "Reason: %s\n" [ArgString "Unspecified"]],
        Returns None).
Proof. repeat split. Qed.

(** C8, amended, at a sample: a good response and a response revoked
    for the reason 1. *)
Lemma parseResponse_Unspecified_witness :
  (exists before reason,
      parseResponse flags_url
        (world_of [[leaf; ca]] (Some [x01]) (ocsp.response_of ocsp.good) leaf) [x01] ca
      = ((before ++ [LogPrintf "Reason: %s\n" [ArgString reason]])%list, Returns None)
      /\ (reason = "Unspecified" <-> 0 = 0))
  /\
  (exists before reason,
      parseResponse flags_url
        (world_of [[leaf; ca]] None (ocsp.response_of (ocsp.revoked (Some 1))) leaf)
        [x01] ca
      = ((before ++ [LogPrintf "Reason: %s\n" [ArgString reason]])%list, Returns None)
      /\ (reason = "Unspecified" <-> 1 = 0)).
Proof.
  split.
  - apply (parseResponse_Unspecified flags_url
             (world_of [[leaf; ca]] (Some [x01]) (ocsp.response_of ocsp.good) leaf)
             [x01] ca (ocsp.response_of ocsp.good)).
    + discriminate.
    + reflexivity.
  - apply (parseResponse_Unspecified flags_url
             (world_of [[leaf; ca]] None (ocsp.response_of (ocsp.revoked (Some 1))) leaf)
             [x01] ca (ocsp.response_of (ocsp.revoked (Some 1)))).
    + discriminate.
    + reflexivity.
Defined.

(** ** manualCheck, stapledCheck and processURL *)

Section Scenario_properties.
Context {asn1 : Asn1}.
Variable flags : Flags.
Variable world : World.

(** A configured, non-empty responder is the URL. *)
Lemma manualCheck_ocspURL_override (ee : x509.Certificate) (u : string) :
  respURL flags = Some u -> u <> "" ->
  manualCheck_ocspURL flags ee = ret u.
Proof.
  intros H Hne. unfold manualCheck_ocspURL. rewrite H.
  destruct (u =? "")%string eqn:E; [|reflexivity].
  apply String.eqb_eq in E. contradiction.
Qed.

(** Without one, the first OCSP server of the certificate is. *)
Lemma manualCheck_ocspURL_first (ee : x509.Certificate) (first : string)
  (more : list string) :
  respURL flags = None \/ respURL flags = Some "" ->
  x509.OCSPServer ee = first :: more ->
  manualCheck_ocspURL flags ee = ret first.
Proof.
  intros [H|H] Hs; unfold manualCheck_ocspURL; rewrite H, Hs; reflexivity.
Qed.

(** Without one and without an OCSP server, the index expression
    panics. *)
Lemma manualCheck_ocspURL_empty (ee : x509.Certificate) :
  respURL flags = None \/ respURL flags = Some "" ->
  x509.OCSPServer ee = [] ->
  manualCheck_ocspURL flags ee = ([], Panics 0 0).
Proof.
  intros [H|H] Hs; unfold manualCheck_ocspURL; rewrite H, Hs; reflexivity.
Qed.

Lemma manualCheck_empty (ee issuer : x509.Certificate) :
  respURL flags = None \/ respURL flags = Some "" ->
  x509.OCSPServer ee = [] ->
  manualCheck flags world ee issuer = ([], Panics 0 0).
Proof.
  intros H Hs. unfold manualCheck.
  rewrite (manualCheck_ocspURL_empty _ H Hs). reflexivity.
Qed.

(** [manualCheck] up to the POST: the request is built, and sent to
    the URL with the content type application/ocsp-request; the body of
    the answer is what [parseResponse] interprets. *)
Lemma manualCheck_posts (ee issuer : x509.Certificate) (ocspURL : string)
  (ocspReq : list byte) :
  manualCheck_ocspURL flags ee = ret ocspURL ->
  ocsp_CreateRequest world ee issuer = Ok ocspReq ->
  (is_set (dump flags) = true ->
   pem_Encode_Stdout world {| pem.Type_ := "OCSP Request"; pem.Bytes := ocspReq |} = None) ->
  http_NewRequest_POST world ocspURL = None ->
  let answer :=
    match client_Do_POST world ocspURL ocspReq with
    | Err err => ret (Some (Errorf "error sending post request: %v" [ArgErr (Some err)]))
    | Ok resp => parseResponse flags world (fst (http.Body resp)) issuer
    end in
  manualCheck flags world ee issuer =
  (([LogPrintf "Server: %v\n" [ArgString (x509.CommonName ee)];
     LogPrintf "Issuer: %v\n" [ArgString (x509.CommonName issuer)];
     LogPrintf "OCSP URL: %v\n" [ArgString ocspURL]]
    ++ dump_events flags "OCSP Request" ocspReq
    ++ [HttpPost ocspURL "application/ocsp-request" ocspReq]
    ++ trace answer)%list,
   result_of answer).
Proof.
  intros Hurl Hreq Hdump Hnew answer. unfold manualCheck.
  rewrite Hurl. unfold ret at 1. rewrite bind_returns. cbv beta.
  unfold log_Printf, emit. rewrite !bind_returns. cbv beta.
  rewrite Hreq, (dumpBlock_passes _ _ _ _ Hdump), bind_returns, Hnew, bind_returns.
  fold answer. reflexivity.
Qed.

Lemma avoids_manualCheck (p : event -> bool) (ee issuer : x509.Certificate) :
  (forall b, p (StdoutPEM b) = false) ->
  (forall l, p (LogPrintln l) = false) ->
  (forall f a, p (LogPrintf f a) = false) ->
  (forall u c b, p (HttpPost u c b) = false) ->
  avoids p (manualCheck flags world ee issuer).
Proof.
  intros H1 H2 H3 H4. unfold manualCheck, manualCheck_ocspURL, log_Printf, emit.
  repeat first
    [ apply avoids_parseResponse; assumption
    | apply avoids_dumpBlock; assumption
    | avoids_step
    | unfold avoids; cbn [trace fst forallb]; rewrite ?H3, ?H4; reflexivity ].
Qed.

Lemma avoids_stapledCheck (p : event -> bool) (ee issuer : x509.Certificate)
  (staple : list byte) :
  (forall b, p (StdoutPEM b) = false) ->
  (forall l, p (LogPrintln l) = false) ->
  (forall f a, p (LogPrintf f a) = false) ->
  avoids p (stapledCheck flags world ee issuer staple).
Proof.
  intros H1 H2 H3. unfold stapledCheck, log_Printf, emit.
  repeat first
    [ apply avoids_parseResponse; assumption
    | avoids_step
    | unfold avoids; cbn [trace fst forallb]; rewrite ?H3; reflexivity ].
Qed.

(** The live-connection scenario reads no file. *)
Lemma processURL_reads_no_file : avoids is_ReadFile (processURL flags world).
Proof.
  unfold processURL, grabServerCert, grabIssuerCert, log_Println, emit.
  repeat first
    [ apply avoids_manualCheck; reflexivity
    | apply avoids_stapledCheck; reflexivity
    | avoids_step ].
Qed.

(** The certificates of a connection whose first verified chain has an
    end-entity certificate and an issuer. *)
Lemma grabServerCert_chain (connState : tls.ConnectionState)
  (server : x509.Certificate) (chain : list x509.Certificate)
  (chains : list (list x509.Certificate)) :
  tls.VerifiedChains connState = (server :: chain) :: chains ->
  grabServerCert connState = ret server.
Proof. intros H. unfold grabServerCert. rewrite H. reflexivity. Qed.

Lemma grabIssuerCert_chain (connState : tls.ConnectionState)
  (server issuer : x509.Certificate) (chain : list x509.Certificate)
  (chains : list (list x509.Certificate)) :
  tls.VerifiedChains connState = (server :: issuer :: chain) :: chains ->
  grabIssuerCert connState = ret issuer.
Proof. intros H. unfold grabIssuerCert. rewrite H. reflexivity. Qed.

(** A first verified chain of one certificate: the index expression
    [connState.VerifiedChains[0][1]] panics. *)
Lemma grabIssuerCert_short_chain (connState : tls.ConnectionState)
  (server : x509.Certificate) (chains : list (list x509.Certificate)) :
  tls.VerifiedChains connState = [server] :: chains ->
  grabIssuerCert connState = ([], Panics 1 1).
Proof. intros H. unfold grabIssuerCert. rewrite H. reflexivity. Qed.

(** [processURL] once the connection has given its state and the
    chain its two certificates. *)
Lemma processURL_connected (resp : http.Response) (connState : tls.ConnectionState)
  (server issuer : x509.Certificate) (chain : list x509.Certificate)
  (chains : list (list x509.Certificate)) :
  http_Get world None (destURL flags) = Ok resp ->
  http.TLS resp = Some connState ->
  tls.VerifiedChains connState = (server :: issuer :: chain) :: chains ->
  processURL flags world =
  (emit (HttpGet (destURL flags)) ;;;
   match tls.OCSPResponse connState with
   | None => log_Println "remote check" ;;; manualCheck flags world server issuer
   | Some staple =>
     if is_set (nostaple flags)
     then log_Println "remote check" ;;; manualCheck flags world server issuer
     else log_Println "stapled check" ;;; stapledCheck flags world server issuer staple
   end)%go.
Proof.
  intros Hget Htls Hchain. unfold processURL.
  rewrite Hget, Htls, (grabServerCert_chain _ _ _ _ Hchain),
    (grabIssuerCert_chain _ _ _ _ _ Hchain).
  rewrite !bind_ret_l. reflexivity.
Qed.

(** C2.  Let the connection have given its state, and the first
    verified chain begin with the server certificate and the issuer.
    If a staple is present and the flag [nostaple] is not set,
    [processURL] is: the GET of the target URL, the log line "stapled
    check", then [stapledCheck] on the staple (the two log lines of
    the certificates and [parseResponse] of the staple), and it
    performs no HTTP POST.  If the staple is absent or [nostaple] is
    set, [processURL] is: the GET, the log line "remote check", then
    [manualCheck]; and when [manualCheck] has a responder URL and a
    request (and neither the dump nor the making of the POST fails),
    the request is posted to that URL with the content type
    application/ocsp-request, and the result is that of
    [parseResponse] on the body of the answer. *)
Theorem processURL_decision (resp : http.Response) (connState : tls.ConnectionState)
  (server issuer : x509.Certificate) (chain : list x509.Certificate)
  (chains : list (list x509.Certificate)) :
  http_Get world None (destURL flags) = Ok resp ->
  http.TLS resp = Some connState ->
  tls.VerifiedChains connState = (server :: issuer :: chain) :: chains ->
  (forall staple,
      tls.OCSPResponse connState = Some staple ->
      is_set (nostaple flags) = false ->
      processURL flags world =
      (([HttpGet (destURL flags); LogPrintln "stapled check";
         LogPrintf "Server: %v\n" [ArgString (x509.CommonName server)];
         LogPrintf "Issuer: %v\n" [ArgString (x509.CommonName issuer)]]
        ++ trace (parseResponse flags world staple issuer))%list,
       result_of (parseResponse flags world staple issuer))
      /\ avoids is_HttpPost (processURL flags world))
  /\
  (tls.OCSPResponse connState = None \/ is_set (nostaple flags) = true ->
   processURL flags world =
   (([HttpGet (destURL flags); LogPrintln "remote check"]
     ++ trace (manualCheck flags world server issuer))%list,
    result_of (manualCheck flags world server issuer))
   /\
   forall ocspURL ocspReq,
     manualCheck_ocspURL flags server = ret ocspURL ->
     ocsp_CreateRequest world server issuer = Ok ocspReq ->
     (is_set (dump flags) = true ->
      pem_Encode_Stdout world {| pem.Type_ := "OCSP Request"; pem.Bytes := ocspReq |}
      = None) ->
     http_NewRequest_POST world ocspURL = None ->
     In (HttpPost ocspURL "application/ocsp-request" ocspReq)
        (trace (processURL flags world))
     /\
     forall answer,
       client_Do_POST world ocspURL ocspReq = Ok answer ->
       result_of (processURL flags world)
       = result_of (parseResponse flags world (fst (http.Body answer)) issuer)).
Proof.
  intros Hget Htls Hchain.
  pose proof (processURL_connected _ _ _ _ _ _ Hget Htls Hchain) as Hrun.
  split.
  - intros staple Hstaple Hflag.
    assert (Heq : processURL flags world =
                  (([HttpGet (destURL flags); LogPrintln "stapled check";
                     LogPrintf "Server: %v\n" [ArgString (x509.CommonName server)];
                     LogPrintf "Issuer: %v\n" [ArgString (x509.CommonName issuer)]]
                    ++ trace (parseResponse flags world staple issuer))%list,
                   result_of (parseResponse flags world staple issuer))).
    { rewrite Hrun, Hstaple, Hflag.
      unfold stapledCheck, log_Println, log_Printf, emit.
      rewrite !bind_returns. reflexivity. }
    split; [exact Heq|].
    rewrite Heq. unfold avoids. cbn [trace fst forallb app is_HttpPost negb andb].
    apply (avoids_parseResponse flags world is_HttpPost); reflexivity.
  - intros Hmanual.
    assert (Heq : processURL flags world =
                  (([HttpGet (destURL flags); LogPrintln "remote check"]
                    ++ trace (manualCheck flags world server issuer))%list,
                   result_of (manualCheck flags world server issuer))).
    { rewrite Hrun. unfold log_Println, emit.
      destruct Hmanual as [Hnone|Hflag].
      - rewrite Hnone, !bind_returns. reflexivity.
      - rewrite Hflag. destruct (tls.OCSPResponse connState);
          rewrite !bind_returns; reflexivity. }
    split; [exact Heq|].
    intros ocspURL ocspReq Hurl Hreq Hdump Hnew.
    rewrite Heq, (manualCheck_posts _ _ _ _ Hurl Hreq Hdump Hnew).
    cbn [trace result_of fst snd]. split.
    + apply in_or_app; right. cbn [In app]. do 3 right.
      apply in_or_app; right. left; reflexivity.
    + intros answer Hanswer. rewrite Hanswer. reflexivity.
Qed.

(** ** processFile *)

(** The scan of the extensions leaves [aiaURL] as it was when no AIA
    extension gives a URL. *)
Lemma processFile_scan_none (extensions : list x509.Extension) (aiaURL : option string) :
  (forall ext, In ext extensions ->
               x509.Id ext = authorityInfoAccess ->
               decodeAIA (x509.Value ext) = ("", None)) ->
  processFile_scan extensions aiaURL = Ok aiaURL.
Proof.
  induction extensions as [|ext extensions IH]; intros H; cbn [processFile_scan].
  - reflexivity.
  - assert (IH' : processFile_scan extensions aiaURL = Ok aiaURL).
    { apply IH. intros e He. apply H. right; exact He. }
    destruct (Equal (x509.Id ext) authorityInfoAccess) eqn:E; [|exact IH'].
    apply Equal_eq in E. rewrite (H ext (or_introl eq_refl) E). exact IH'.
Qed.

(** C10.  Let the file be read, decoded and parsed as the certificate
    [endEntity].  If every extension of [endEntity] whose OID is
    1.3.6.1.5.5.7.1.1 (AIA) is decoded by [decodeAIA] to the empty URL
    with no error (so, in particular, if no extension has that OID),
    [processFile] returns the error "No AIA url, ...", and the reading
    of the file is its only event: it performs no network fetch. *)
Theorem processFile_no_issuer_location (certPEM : list byte) (block : pem.Block)
  (endEntity : x509.Certificate) :
  ioutil_ReadFile world (certPath flags) = Ok certPEM ->
  pem_Decode world certPEM = Some block ->
  x509_ParseCertificate world (pem.Bytes block) = Ok endEntity ->
  (forall ext, In ext (x509.Extensions endEntity) ->
               x509.Id ext = authorityInfoAccess ->
               decodeAIA (x509.Value ext) = ("", None)) ->
  processFile flags world =
  ([ReadFile (certPath flags)],
   Returns (Some (Errorf "No AIA url, and previous error was %s" [ArgErr None])))
  /\ avoids is_network (processFile flags world).
Proof.
  intros Hread Hpem Hparse Haia.
  assert (Heq : processFile flags world =
                ([ReadFile (certPath flags)],
                 Returns (Some (Errorf "No AIA url, and previous error was %s"
                                       [ArgErr None])))).
  { unfold processFile.
    rewrite Hread, Hpem, Hparse, (processFile_scan_none _ None Haia). reflexivity. }
  split; [exact Heq|]. rewrite Heq. reflexivity.
Qed.

(** When the decoding of an AIA extension fails, before any AIA
    extension has given a URL, [processFile] returns the error of
    [decodeAIA], and the reading of the file is its only event. *)
Lemma processFile_decode_error (certPEM : list byte) (block : pem.Block)
  (endEntity : x509.Certificate) (err : error) :
  ioutil_ReadFile world (certPath flags) = Ok certPEM ->
  pem_Decode world certPEM = Some block ->
  x509_ParseCertificate world (pem.Bytes block) = Ok endEntity ->
  processFile_scan (x509.Extensions endEntity) None = Err err ->
  processFile flags world = ([ReadFile (certPath flags)], Returns (Some err)).
Proof.
  intros Hread Hpem Hparse Hscan. unfold processFile.
  rewrite Hread, Hpem, Hparse, Hscan. reflexivity.
Qed.

(** ** main *)

(** [main] when both a URL (with the prefix "https") and a file are
    given. *)
Lemma main_with_both_inputs :
  destURL flags <> "" ->
  certPath flags <> "" ->
  String.prefix "https" (destURL flags) = true ->
  main flags world =
  (err <- processURL flags world ;;
   match err with
   | Some err => log_Fatalf "Error processing URL: %v\n" [ArgErr (Some err)]
   | None =>
     err <- processFile flags world ;;
     match err with
     | Some err => log_Fatalf "Error processing file: %v\n" [ArgErr (Some err)]
     | None => ret tt
     end
   end)%go.
Proof.
  intros Hurl Hpath Hhttps. unfold main.
  apply String.eqb_neq in Hurl, Hpath. rewrite Hurl, Hpath, Hhttps.
  cbn [andb negb].
  destruct (processURL flags world) as [t [[err|]|i n|c]]; cbn [bind]; try reflexivity.
  unfold ret at 1. cbv iota. rewrite app_nil_r, bind_returns.
  destruct (bind (processFile flags world) _) as [t' o']. reflexivity.
Qed.

(** C3, amended.  When both a URL (with the prefix "https") and a file
    are given, the live-connection scenario runs first: its events
    begin the events of [main].  If it returns an error, [main] logs
    "Error processing URL" and the process exits with the status 1; if
    it panics, the process panics there; in both cases the file is not
    read, the standalone-file scenario does not run.  If it returns no
    error, the standalone-file scenario runs after it: the events of
    [main] are those of [processURL], then those of [processFile];
    then, if [processFile] returns an error, [main] logs "Error
    processing file" and the process exits with the status 1; if
    [processFile] returns nil, [main] returns; and if [processFile]
    ends the process itself (it exits on an unusable file, or panics),
    the process ends there, with that outcome and without the line
    "Error processing file". *)
Theorem main_both_scenarios :
  destURL flags <> "" ->
  certPath flags <> "" ->
  String.prefix "https" (destURL flags) = true ->
  (exists after,
      trace (main flags world) = (trace (processURL flags world) ++ after)%list)
  /\
  (forall err,
      result_of (processURL flags world) = Returns (Some err) ->
      main flags world =
      ((trace (processURL flags world)
        ++ [LogPrintf "Error processing URL: %v\n" [ArgErr (Some err)]])%list,
       Exits 1)
      /\ ~ In (ReadFile (certPath flags)) (trace (main flags world)))
  /\
  (result_of (processURL flags world) = Returns None ->
   (forall err,
       result_of (processFile flags world) = Returns (Some err) ->
       main flags world =
       ((trace (processURL flags world) ++ trace (processFile flags world)
         ++ [LogPrintf "Error processing file: %v\n" [ArgErr (Some err)]])%list,
        Exits 1))
   /\
   (result_of (processFile flags world) = Returns None ->
    main flags world =
    ((trace (processURL flags world) ++ trace (processFile flags world))%list,
     Returns tt)))
  /\
  (result_of (processURL flags world) = Returns None ->
   (forall c,
       result_of (processFile flags world) = Exits c ->
       main flags world =
       ((trace (processURL flags world) ++ trace (processFile flags world))%list,
        Exits c))
   /\
   (forall i n,
       result_of (processFile flags world) = Panics i n ->
       main flags world =
       ((trace (processURL flags world) ++ trace (processFile flags world))%list,
        Panics i n)))
  /\
  (forall i n,
      result_of (processURL flags world) = Panics i n ->
      main flags world = (trace (processURL flags world), Panics i n)
      /\ ~ In (ReadFile (certPath flags)) (trace (main flags world)))
  /\
  (forall c,
      result_of (processURL flags world) = Exits c ->
      main flags world = (trace (processURL flags world), Exits c)
      /\ ~ In (ReadFile (certPath flags)) (trace (main flags world))).
Proof.
  intros Hurl Hpath Hhttps.
  pose proof (main_with_both_inputs Hurl Hpath Hhttps) as Hmain.
  pose proof processURL_reads_no_file as Hno.
  rewrite (M_eta (processURL flags world)) in Hmain.
  split; [|split; [|split; [|split; [|split]]]].
  - rewrite Hmain, bind_trace. eexists. reflexivity.
  - intros err Herr. rewrite Herr in Hmain.
    assert (Heq : main flags world =
                  ((trace (processURL flags world)
                    ++ [LogPrintf "Error processing URL: %v\n" [ArgErr (Some err)]])%list,
                   Exits 1)).
    { rewrite Hmain. reflexivity. }
    split; [exact Heq|].
    rewrite Heq. cbn [trace fst]. intros Hin.
    apply in_app_or in Hin as [Hin|[Hin|[]]]; [|discriminate].
    exact (avoids_In is_ReadFile _ (ReadFile (certPath flags)) Hno eq_refl Hin).
  - intros Hnone. rewrite Hnone, bind_returns in Hmain. cbv beta in Hmain.
    rewrite (M_eta (processFile flags world)) in Hmain.
    split.
    + intros err Herr. rewrite Herr in Hmain. rewrite Hmain.
      cbn. rewrite <- ?app_assoc. reflexivity.
    + intros Hok. rewrite Hok in Hmain. rewrite Hmain.
      cbn. rewrite ?app_nil_r. reflexivity.
  - intros Hnone. rewrite Hnone, bind_returns in Hmain. cbv beta in Hmain.
    rewrite (M_eta (processFile flags world)) in Hmain.
    split.
    + intros c Hc. rewrite Hc in Hmain. rewrite Hmain. reflexivity.
    + intros i n Hp. rewrite Hp in Hmain. rewrite Hmain. reflexivity.
  - intros i n Hp. rewrite Hp in Hmain.
    assert (Heq : main flags world = (trace (processURL flags world), Panics i n)).
    { rewrite Hmain. reflexivity. }
    split; [exact Heq|]. rewrite Heq. cbn [trace fst].
    exact (avoids_In is_ReadFile _ (ReadFile (certPath flags)) Hno eq_refl).
  - intros c Hc. rewrite Hc in Hmain.
    assert (Heq : main flags world = (trace (processURL flags world), Exits c)).
    { rewrite Hmain. reflexivity. }
    split; [exact Heq|]. rewrite Heq. cbn [trace fst].
    exact (avoids_In is_ReadFile _ (ReadFile (certPath flags)) Hno eq_refl).
Qed.

End Scenario_properties.

(** C1.  The URL of [manualCheck] is the configured responder when it
    is not empty, and the first OCSP server of the certificate when no
    responder is configured; but for a certificate without an OCSP
    server, with no responder configured, [manualCheck] does not return
    an error: the index expression [ee.OCSPServer[0]] panics (index out
    of range [0] with length 0) before anything is logged. *)
Theorem manualCheck_without_responder_panics
  (world : World) (url path : string) (nostaple dump : option bool)
  (cn : string) (extensions : list x509.Extension) (issuer : x509.Certificate) :
  (forall c s servers,
      manualCheck_ocspURL
        {| destURL := url; certPath := path; respURL := Some (String c s);
           nostaple := nostaple; dump := dump |}
        {| x509.CommonName := cn; x509.Extensions := extensions;
           x509.OCSPServer := servers |}
      = ret (String c s))
  /\
  (forall first more,
      manualCheck_ocspURL
        {| destURL := url; certPath := path; respURL := Some "";
           nostaple := nostaple; dump := dump |}
        {| x509.CommonName := cn; x509.Extensions := extensions;
           x509.OCSPServer := first :: more |}
      = ret first)
  /\
  manualCheck
    {| destURL := url; certPath := path; respURL := Some "";
       nostaple := nostaple; dump := dump |}
    world
    {| x509.CommonName := cn; x509.Extensions := extensions; x509.OCSPServer := [] |}
    issuer
  = ([], Panics 0 0).
Proof.
  split; [|split].
  - intros c s servers. apply manualCheck_ocspURL_override; [reflexivity|discriminate].
  - intros first more. apply (manualCheck_ocspURL_first _ _ first more);
      [right|]; reflexivity.
  - apply manualCheck_empty; [right|]; reflexivity.
Qed.

(** C9.  The server certificate and the issuer are the certificates 0
    and 1 of the first verified chain; but when the first verified
    chain has one certificate only, or there is no verified chain,
    [processURL] does not return an error: the index expressions of
    [grabIssuerCert] and [grabServerCert] panic (index out of range [1]
    with length 1, index out of range [0] with length 0) right after
    the GET. *)
Theorem processURL_short_chain_panics
  (server issuer : x509.Certificate) (chain : list x509.Certificate)
  (chains : list (list x509.Certificate)) (staple : option (list byte))
  (parsed : ocsp.Response) (file_cert : x509.Certificate) :
  let connected := {| tls.VerifiedChains := (server :: issuer :: chain) :: chains;
                      tls.OCSPResponse := staple |} in
  grabServerCert connected = ret server
  /\ grabIssuerCert connected = ret issuer
  /\ processURL flags_url (world_of ([server] :: chains) staple parsed file_cert)
     = ([HttpGet "https://example.com"], Panics 1 1)
  /\ processURL flags_url (world_of [] staple parsed file_cert)
     = ([HttpGet "https://example.com"], Panics 0 0).
Proof. repeat split. Qed.

(** C2 at samples: with a staple and without [-nostaple], no POST; with
    [-nostaple], the POST of the request to the responder of the
    certificate. *)
Lemma processURL_decision_witness :
  avoids is_HttpPost
    (processURL flags_url
       (world_of [[leaf; ca]] (Some [x01]) (ocsp.response_of ocsp.good) leaf))
  /\
  In (HttpPost "http://ocsp.example.com" "application/ocsp-request" [x30; x00])
     (trace (processURL flags_url_nostaple
               (world_of [[leaf; ca]] (Some [x01]) (ocsp.response_of ocsp.good) leaf))).
Proof.
  split.
  - apply (proj1 (processURL_decision flags_url
                    (world_of [[leaf; ca]] (Some [x01]) (ocsp.response_of ocsp.good) leaf)
                    _ _ leaf ca [] [] eq_refl eq_refl eq_refl) [x01]); reflexivity.
  - apply (proj2 (processURL_decision flags_url_nostaple
                    (world_of [[leaf; ca]] (Some [x01]) (ocsp.response_of ocsp.good) leaf)
                    _ _ leaf ca [] [] eq_refl eq_refl eq_refl)).
    + right; reflexivity.
    + reflexivity.
    + reflexivity.
    + discriminate.
    + reflexivity.
Defined.

(** C10 at samples: a certificate without an AIA extension, and one
    whose AIA extension has an OCSP description only. *)
Lemma processFile_no_issuer_location_witness :
  processFile flags_pem
    (world_of [] None (ocsp.response_of ocsp.good) leaf_without_AIA)
  = ([ReadFile "cert.pem"],
     Returns (Some (Errorf "No AIA url, and previous error was %s" [ArgErr None])))
  /\
  processFile flags_pem
    (world_of [] None (ocsp.response_of ocsp.good) leaf_AIA_ocsp_only)
  = ([ReadFile "cert.pem"],
     Returns (Some (Errorf "No AIA url, and previous error was %s" [ArgErr None]))).
Proof.
  split.
  - apply (processFile_no_issuer_location flags_pem
             (world_of [] None (ocsp.response_of ocsp.good) leaf_without_AIA)
             [x30; x00] {| pem.Type_ := "CERTIFICATE"; pem.Bytes := [x30; x00] |}
             leaf_without_AIA); try reflexivity.
    intros ext [<-|[<-|[]]]; discriminate.
  - apply (processFile_no_issuer_location flags_pem
             (world_of [] None (ocsp.response_of ocsp.good) leaf_AIA_ocsp_only)
             [x30; x00] {| pem.Type_ := "CERTIFICATE"; pem.Bytes := [x30; x00] |}
             leaf_AIA_ocsp_only); try reflexivity.
    intros ext [<-|[]] _. vm_compute; reflexivity.
Defined.

(** C3 as stated fails.  Both a URL and a file are given, and the file
    scenario, run, would read the file; the server cannot be reached,
    [processURL] returns the error, and [main] logs it and exits: the
    file is not read. *)
Lemma main_URL_failure_suppresses_file :
  destURL flags_both <> "" /\ certPath flags_both <> ""
  /\ In (ReadFile "cert.pem") (trace (processFile flags_both (world_offline leaf)))
  /\ processURL flags_both (world_offline leaf)
     = ([HttpGet "https://example.com"], Returns (Some refused))
  /\ main flags_both (world_offline leaf)
     = ([HttpGet "https://example.com";
         LogPrintf "Error processing URL: %v\n" [ArgErr (Some refused)]],
        Exits 1)
  /\ ~ In (ReadFile "cert.pem") (trace (main flags_both (world_offline leaf))).
Proof.
  repeat split; try discriminate.
  - left; reflexivity.
  - intros [H|[H|[]]]; discriminate.
Qed.

(** C3, amended, at samples: the server cannot be reached; the
    live-connection scenario succeeds, after which the file scenario
    returns an error; the live-connection scenario succeeds, after
    which the file cannot be read; and the live-connection scenario
    panics on a chain of one certificate. *)
Lemma main_both_scenarios_witness :
  main flags_both (world_offline leaf)
  = ([HttpGet "https://example.com";
      LogPrintf "Error processing URL: %v\n" [ArgErr (Some refused)]],
     Exits 1)
  /\
  main flags_both
    (world_of [[leaf; ca]] (Some [x01]) (ocsp.response_of ocsp.good) leaf_without_AIA)
  = ([HttpGet "https://example.com"; LogPrintln "stapled check";
      LogPrintf "Server: %v\n" [ArgString "leaf.example.com"];
      LogPrintf "Issuer: %v\n" [ArgString "Example CA"];
      LogPrintln "Certificate Status Good.";
      LogPrintf "Reason: %s\n" [ArgString "Unspecified"];
      ReadFile "cert.pem";
      LogPrintf "Error processing file: %v\n"
        [ArgErr (Some (Errorf "No AIA url, and previous error was %s" [ArgErr None]))]],
     Exits 1)
  /\
  main flags_both world_staple_no_file
  = ([HttpGet "https://example.com"; LogPrintln "stapled check";
      LogPrintf "Server: %v\n" [ArgString "leaf.example.com"];
      LogPrintf "Issuer: %v\n" [ArgString "Example CA"];
      LogPrintln "Certificate Status Good.";
      LogPrintf "Reason: %s\n" [ArgString "Unspecified"];
      ReadFile "cert.pem";
      LogPrintf "Error reading file: %v" [ArgErr (Some no_such_file)]],
     Exits 1)
  /\
  main flags_both
    (world_of [[leaf]] (Some [x01]) (ocsp.response_of ocsp.good) leaf)
  = ([HttpGet "https://example.com"], Panics 1 1).
Proof.
  split; [|split; [|split]].
  3:{ assert (H1 : destURL flags_both <> "") by discriminate.
      assert (H2 : certPath flags_both <> "") by discriminate.
      destruct (main_both_scenarios flags_both world_staple_no_file H1 H2 eq_refl)
        as (_ & _ & _ & H & _).
      exact (proj1 (H eq_refl) 1 eq_refl). }
  3:{ assert (H1 : destURL flags_both <> "") by discriminate.
      assert (H2 : certPath flags_both <> "") by discriminate.
      destruct (main_both_scenarios flags_both
                  (world_of [[leaf]] (Some [x01]) (ocsp.response_of ocsp.good) leaf)
                  H1 H2 eq_refl)
        as (_ & _ & _ & _ & H & _).
      exact (proj1 (H 1%nat 1%nat eq_refl)). }
  - assert (H1 : destURL flags_both <> "") by discriminate.
    assert (H2 : certPath flags_both <> "") by discriminate.
    destruct (main_both_scenarios flags_both (world_offline leaf) H1 H2 eq_refl)
      as (_ & H & _).
    exact (proj1 (H refused eq_refl)).
  - assert (H1 : destURL flags_both <> "") by discriminate.
    assert (H2 : certPath flags_both <> "") by discriminate.
    destruct (main_both_scenarios flags_both
                (world_of [[leaf; ca]] (Some [x01]) (ocsp.response_of ocsp.good)
                   leaf_without_AIA) H1 H2 eq_refl)
      as (_ & _ & H & _).
    exact (proj1 (H eq_refl) _ eq_refl).
Defined.

(** * Further properties *)

(** ** decodeAIA: what its results say about the input *)

Section DecodeAIA_results.
Context {asn1 : Asn1}.

(** A pass that goes round again has read a child. *)
Lemma decodeAIA_body_consumes (rest rest' : list byte) :
  decodeAIA_body rest = Continue rest' -> (List.length rest' < List.length rest)%nat.
Proof.
  unfold decodeAIA_body.
  destruct (Unmarshal_RawValue rest) as [[inside r1]|e] eqn:E1; [|discriminate].
  destruct (_ || _); [discriminate|].
  destruct (Unmarshal_ObjectIdentifier _) as [[oid body]|e]; [|discriminate].
  destruct (Unmarshal_RawValue body) as [[ed r2]|e]; [|discriminate].
  destruct (negb _); [discriminate|].
  destruct (Equal _ _); [destruct (_ =? _); discriminate|].
  intros H; injection H as <-.
  exact (Unmarshal_RawValue_consumes rest inside r1 E1).
Qed.

(** Induction over the passes of the loop. *)
Lemma decodeAIA_loop_passes (P : list byte -> string * option error -> Prop) :
  P [] ("", None) ->
  (forall rest r, rest <> [] -> decodeAIA_body rest = Return r -> P rest r) ->
  (forall rest rest' r,
      rest <> [] -> decodeAIA_body rest = Continue rest' -> P rest' r -> P rest r) ->
  forall rest, P rest (decodeAIA_loop rest).
Proof.
  intros Hnil Hret Hcont rest.
  remember (List.length rest) as k eqn:Hk.
  revert rest Hk. induction k as [k IH] using lt_wf_ind. intros rest Hk.
  rewrite decodeAIA_loop_eq. destruct rest as [|b bs]; [exact Hnil|].
  destruct (decodeAIA_body (b :: bs)) as [r|rest'] eqn:E.
  - apply Hret; [discriminate|exact E].
  - apply (Hcont _ rest'); [discriminate|exact E|].
    apply (IH (List.length rest')); [|reflexivity].
    subst k. exact (decodeAIA_body_consumes _ _ E).
Qed.

(** A pass that returns a URL has read a CA-Issuers description whose
    location has the tag 6. *)
Lemma decodeAIA_body_returns (rest : list byte) (url : string) (err : option error) :
  decodeAIA_body rest = Return (url, err) ->
  (err <> None /\ url = "")
  \/ (err = None
      /\ exists ad later,
          read_description rest = Some (ad, later)
          /\ is_CA_Issuers ad = true
          /\ Tag (accessLocation ad) = 6
          /\ url = string_of_list_byte (Bytes (accessLocation ad))).
Proof.
  unfold decodeAIA_body, read_description, is_CA_Issuers.
  destruct (Unmarshal_RawValue rest) as [[inside r1]|e];
    [|intros H; injection H as <- <-; left; split; [discriminate|reflexivity]].
  rewrite not_sequence_guard.
  destruct (is_sequence inside); cbn [negb];
    [|intros H; injection H as <- <-; left; split; [discriminate|reflexivity]].
  destruct (Unmarshal_ObjectIdentifier _) as [[oid body]|e];
    [|intros H; injection H as <- <-; left; split; [discriminate|reflexivity]].
  destruct (Unmarshal_RawValue body) as [[ed [|t ts]]|e]; cbn [List.length Nat.eqb negb];
    try (intros H; injection H as <- <-; left; split; [discriminate|reflexivity]).
  destruct (Equal oid aiaIssuer) eqn:Hoid; [|discriminate].
  destruct (Tag ed =? 6) eqn:Htag;
    [|intros H; injection H as <- <-; left; split; [discriminate|reflexivity]].
  intros H; injection H as <- <-. right. split; [reflexivity|].
  eexists _, _. split; [reflexivity|]. cbn.
  repeat split; [exact Hoid | apply Z.eqb_eq; exact Htag].
Qed.

(** A pass that goes round again has read a well-formed description
    that is not CA-Issuers. *)
Lemma decodeAIA_body_continues (rest rest' : list byte) :
  decodeAIA_body rest = Continue rest' ->
  exists ad, read_description rest = Some (ad, rest') /\ is_CA_Issuers ad = false.
Proof.
  unfold decodeAIA_body, read_description, is_CA_Issuers.
  destruct (Unmarshal_RawValue rest) as [[inside r1]|e]; [|discriminate].
  rewrite not_sequence_guard.
  destruct (is_sequence inside); cbn [negb]; [|discriminate].
  destruct (Unmarshal_ObjectIdentifier _) as [[oid body]|e]; [|discriminate].
  destruct (Unmarshal_RawValue body) as [[ed [|t ts]]|e]; cbn [List.length Nat.eqb negb];
    try discriminate.
  destruct (Equal oid aiaIssuer) eqn:Hoid; [destruct (Tag ed =? 6); discriminate|].
  intros H; injection H as <-. eexists. split; [reflexivity|exact Hoid].
Qed.

Lemma decodeAIA_loop_error_no_URL (rest : list byte) :
  snd (decodeAIA_loop rest) = None \/ fst (decodeAIA_loop rest) = "".
Proof.
  apply (decodeAIA_loop_passes
           (fun _ r => snd r = None \/ fst r = "")).
  - left; reflexivity.
  - intros rest0 [url err] _ H. apply decodeAIA_body_returns in H.
    destruct H as [[_ ->]|[-> _]]; [right|left]; reflexivity.
  - intros _ _ r _ _ H. exact H.
Qed.

(** X1.  [decodeAIA] never returns a URL together with an error: for
    every input, the error is nil or the URL is empty. *)
Theorem decodeAIA_error_has_no_URL (ext : list byte) :
  snd (decodeAIA ext) = None \/ fst (decodeAIA ext) = "".
Proof.
  unfold decodeAIA.
  destruct (Unmarshal_RawValue ext) as [[seq rest]|e]; [|right; reflexivity].
  destruct (negb _); [right; reflexivity|].
  destruct (_ || _); [right; reflexivity|].
  apply decodeAIA_loop_error_no_URL.
Qed.

Lemma decodeAIA_loop_success (rest : list byte) :
  forall url,
    decodeAIA_loop rest = (url, None) ->
    exists n before rest',
      read_descriptions n rest = Some (before, rest')
      /\ existsb is_CA_Issuers before = false
      /\ ((rest' = [] /\ url = "")
          \/ exists ad later,
              read_description rest' = Some (ad, later)
              /\ is_CA_Issuers ad = true
              /\ Tag (accessLocation ad) = 6
              /\ url = string_of_list_byte (Bytes (accessLocation ad))).
Proof.
  apply (decodeAIA_loop_passes
           (fun rest r =>
              forall url, r = (url, None) ->
              exists n before rest',
                read_descriptions n rest = Some (before, rest')
                /\ existsb is_CA_Issuers before = false
                /\ ((rest' = [] /\ url = "")
                    \/ exists ad later,
                        read_description rest' = Some (ad, later)
                        /\ is_CA_Issuers ad = true
                        /\ Tag (accessLocation ad) = 6
                        /\ url = string_of_list_byte (Bytes (accessLocation ad))))).
  - intros url H; injection H as <-.
    exists 0%nat, [], []. repeat split. left; split; reflexivity.
  - intros rest0 r _ Hbody url ->. apply decodeAIA_body_returns in Hbody.
    destruct Hbody as [[Hne _]|[_ Hhit]]; [congruence|].
    exists 0%nat, [], rest0. repeat split. right; exact Hhit.
  - intros rest0 rest' r _ Hbody IH url ->.
    apply decodeAIA_body_continues in Hbody as (ad & Had & Hno).
    destruct (IH url eq_refl) as (n & before & tail & Hds & Hnone & Hend).
    exists (S n), (ad :: before), tail. cbn [read_descriptions existsb].
    rewrite Had, Hds, Hno, Hnone. repeat split. exact Hend.
Qed.

(** X2.  A result of [decodeAIA] without an error always comes from a
    well-formed beginning: the input is one universal constructed
    SEQUENCE with nothing after it, whose content begins with
    well-formed AccessDescriptions none of which is CA-Issuers, after
    which either the content ends and the URL is empty, or a
    well-formed CA-Issuers description follows whose location has the
    tag 6 and whose bytes are the URL. *)
Theorem decodeAIA_success_inv (ext : list byte) (url : string) :
  decodeAIA ext = (url, None) ->
  exists content n before rest,
    outer_sequence ext = Some content
    /\ read_descriptions n content = Some (before, rest)
    /\ existsb is_CA_Issuers before = false
    /\ ((rest = [] /\ url = "")
        \/ exists ad later,
            read_description rest = Some (ad, later)
            /\ is_CA_Issuers ad = true
            /\ Tag (accessLocation ad) = 6
            /\ url = string_of_list_byte (Bytes (accessLocation ad))).
Proof.
  unfold decodeAIA, outer_sequence.
  destruct (Unmarshal_RawValue ext) as [[seq [|t ts]]|e];
    cbn [List.length Nat.eqb negb]; try discriminate.
  rewrite not_sequence_guard.
  destruct (is_sequence seq); cbn [negb]; [|discriminate].
  intros H. apply decodeAIA_loop_success in H as (n & before & rest & H).
  exists (Bytes seq), n, before, rest. split; [reflexivity|exact H].
Qed.

(** On the empty input [decodeAIA] returns no URL and the
    "Error unmarshaling" error: there is nothing to decode. *)
Lemma decodeAIA_empty_input :
  exists e, decodeAIA [] = ("", Some (Errorf "Error unmarshaling %s" [ArgErr (Some e)])).
Proof.
  unfold decodeAIA.
  destruct (Unmarshal_RawValue []) as [[seq rest]|e] eqn:E.
  - exfalso. exact (Unmarshal_RawValue_nil _ _ E).
  - exists e. reflexivity.
Qed.

End DecodeAIA_results.

(** X2 at a sample: the URL of [aia_ocsp_issuer_integer] comes from its
    second description. *)
Lemma decodeAIA_success_inv_witness :
  exists content n before rest,
    outer_sequence aia_ocsp_issuer_integer = Some content
    /\ read_descriptions n content = Some (before, rest)
    /\ existsb is_CA_Issuers before = false
    /\ ((rest = [] /\ issuer_url = "")
        \/ exists ad later,
            read_description rest = Some (ad, later)
            /\ is_CA_Issuers ad = true
            /\ Tag (accessLocation ad) = 6
            /\ issuer_url = string_of_list_byte (Bytes (accessLocation ad))).
Proof.
  apply (decodeAIA_success_inv aia_ocsp_issuer_integer issuer_url).
  vm_compute; reflexivity.
Defined.

(** ** parseResponse: verdict or error *)

Section ParseResponse_results.
Variable flags : Flags.
Variable world : World.

(** [dumpBlock] returns the error of [pem.Encode] when the dump is on,
    and nil when it is off. *)
Lemma dumpBlock_eq (type : string) (bytes : list byte) :
  dumpBlock flags world type bytes =
  (dump_events flags type bytes,
   Returns (if is_set (dump flags)
            then pem_Encode_Stdout world {| pem.Type_ := type; pem.Bytes := bytes |}
            else None)).
Proof.
  unfold dumpBlock, dump_events. destruct (is_set (dump flags)); reflexivity.
Qed.

(** The ways [parseResponse] ends, and what it has logged. *)
Lemma parseResponse_outcomes (response : list byte)
  (issuer : x509.Certificate) :
  match result_of (parseResponse flags world response issuer) with
  | Returns None =>
    exists resp line,
      ocsp_ParseResponse world response issuer = Ok resp
      /\ trace (parseResponse flags world response issuer)
         = (dump_events flags "OCSP Response" response
            ++ [LogPrintln line;
                LogPrintf "Reason: %s\n"
                  [ArgString (reason_of (ocsp.RevocationReason resp))]])%list
  | Returns (Some _) =>
    trace (parseResponse flags world response issuer)
    = dump_events flags "OCSP Response" response
  | Panics _ _ | Exits _ => False
  end.
Proof.
  unfold parseResponse. rewrite dumpBlock_eq, bind_returns. cbv beta.
  destruct (if is_set (dump flags) then _ else None) as [err|];
    cbn [ret trace result_of fst snd]; [apply app_nil_r|].
  destruct (ocsp_ParseResponse world response issuer) as [resp|err];
    cbn [ret trace result_of fst snd]; [|apply app_nil_r].
  destruct (ocsp.Status resp =? ocsp.Good); [|destruct (ocsp.Status resp =? ocsp.Unknown)];
    cbn; eexists _, _; (split; [reflexivity|reflexivity]).
Qed.

(** X3.  [parseResponse] logs a verdict exactly when it returns nil.
    It never panics and never exits.  When it returns nil,
    [ocsp.ParseResponse] has accepted the response and the log has the
    status line and the reason line; when it returns an error (of the
    dump or of [ocsp.ParseResponse]) it has logged nothing: no status
    is reported for a response that was not interpreted. *)
Theorem parseResponse_verdict_or_error (response : list byte)
  (issuer : x509.Certificate) :
  match result_of (parseResponse flags world response issuer) with
  | Returns None =>
    exists resp line,
      ocsp_ParseResponse world response issuer = Ok resp
      /\ trace (parseResponse flags world response issuer)
         = (dump_events flags "OCSP Response" response
            ++ [LogPrintln line;
                LogPrintf "Reason: %s\n"
                  [ArgString (reason_of (ocsp.RevocationReason resp))]])%list
  | Returns (Some _) =>
    trace (parseResponse flags world response issuer)
    = dump_events flags "OCSP Response" response
  | Panics _ _ | Exits _ => False
  end.
Proof. exact (parseResponse_outcomes response issuer). Qed.

(** X4.  The status line of an accepted response is "Good" for the
    status 0, "Unknown" for the status 2 and "Revoked" for every other
    status, whatever number it is; and [parseResponse] returns nil for
    each of them: a revoked certificate is not an error. *)
Theorem parseResponse_status_line (response : list byte) (issuer : x509.Certificate)
  (resp : ocsp.Response) :
  (is_set (dump flags) = true ->
   pem_Encode_Stdout world {| pem.Type_ := "OCSP Response"; pem.Bytes := response |}
   = None) ->
  ocsp_ParseResponse world response issuer = Ok resp ->
  result_of (parseResponse flags world response issuer) = Returns None
  /\ exists line,
      filter is_log (trace (parseResponse flags world response issuer))
      = [LogPrintln line;
         LogPrintf "Reason: %s\n" [ArgString (reason_of (ocsp.RevocationReason resp))]]
      /\ (line = "Certificate Status Good." <-> ocsp.Status resp = 0)
      /\ (line = "Certificate Status Unknown" <-> ocsp.Status resp = 2)
      /\ (line = "Certificate Status Revoked"
          <-> ocsp.Status resp <> 0 /\ ocsp.Status resp <> 2).
Proof.
  intros Hdump Hparse. rewrite (parseResponse_parsed _ _ _ _ _ Hdump Hparse).
  split; [reflexivity|]. cbn [trace fst]. eexists. split.
  - rewrite filter_app. unfold dump_events.
    destruct (is_set (dump flags)); reflexivity.
  - unfold ocsp.Good, ocsp.Unknown.
    destruct (ocsp.Status resp =? 0) eqn:E0; [|destruct (ocsp.Status resp =? 2) eqn:E2].
    + apply Z.eqb_eq in E0. rewrite E0.
      repeat split; try discriminate; try reflexivity; intros [H _]; congruence.
    + apply Z.eqb_neq in E0. apply Z.eqb_eq in E2. rewrite E2.
      repeat split; try discriminate; try reflexivity; intros [_ H]; congruence.
    + apply Z.eqb_neq in E0, E2.
      repeat split; try discriminate; try reflexivity; try assumption; congruence.
Qed.

Lemma parseResponse_returns (response : list byte) (issuer : x509.Certificate) :
  exists r, result_of (parseResponse flags world response issuer) = Returns r.
Proof.
  pose proof (parseResponse_outcomes response issuer) as H.
  destruct (result_of (parseResponse flags world response issuer)) as [r|i n|c];
    [eexists; reflexivity|contradiction|contradiction].
Qed.

End ParseResponse_results.

(** X4 at a sample: a response with the status 3. *)
Lemma parseResponse_status_line_witness :
  exists line,
    filter is_log
      (trace (parseResponse flags_url
                (world_of [[leaf; ca]] None
                   {| ocsp.Status := 3; ocsp.RevocationReason := 0 |} leaf)
                [x01] ca))
    = [LogPrintln line; LogPrintf "Reason: %s\n" [ArgString "Unspecified"]]
    /\ (line = "Certificate Status Good." <-> 3 = 0)
    /\ (line = "Certificate Status Unknown" <-> 3 = 2)
    /\ (line = "Certificate Status Revoked" <-> 3 <> 0 /\ 3 <> 2).
Proof.
  apply (proj2 (parseResponse_status_line flags_url
                  (world_of [[leaf; ca]] None
                     {| ocsp.Status := 3; ocsp.RevocationReason := 0 |} leaf)
                  [x01] ca {| ocsp.Status := 3; ocsp.RevocationReason := 0 |}
                  ltac:(discriminate) eq_refl)).
Defined.

(** ** manualCheck: what is sent, and how it ends *)

Section ManualCheck_results.
Variable flags : Flags.
Variable world : World.

Lemma avoids_filter {A : Type} (p : event -> bool) (m : M A) :
  avoids p m -> filter p (trace m) = [].
Proof.
  unfold avoids. induction (trace m) as [|e t IH]; [reflexivity|].
  cbn [forallb filter]. intros H. apply andb_true_iff in H as [He Ht].
  apply negb_true_iff in He. rewrite He. exact (IH Ht).
Qed.

(** The choice of the URL either gives a URL or panics. *)
Lemma manualCheck_ocspURL_cases (ee : x509.Certificate) :
  (exists u,
      manualCheck_ocspURL flags ee = ret u
      /\ (respURL flags = Some u /\ u <> ""
          \/ (respURL flags = None \/ respURL flags = Some "")
             /\ nth_error (x509.OCSPServer ee) 0 = Some u))
  \/ (manualCheck_ocspURL flags ee = ([], Panics 0 0)
      /\ x509.OCSPServer ee = []
      /\ (respURL flags = None \/ respURL flags = Some "")).
Proof.
  unfold manualCheck_ocspURL, index.
  destruct (respURL flags) as [u|] eqn:Hr.
  - destruct (u =? "")%string eqn:E.
    + apply String.eqb_eq in E. subst u.
      destruct (x509.OCSPServer ee) as [|first more].
      * right. repeat split. right; reflexivity.
      * left. exists first. split; [reflexivity|]. right. split; [right|]; reflexivity.
    + apply String.eqb_neq in E. left. exists u. split; [reflexivity|].
      left. split; [reflexivity|exact E].
  - destruct (x509.OCSPServer ee) as [|first more].
    + right. repeat split. left; reflexivity.
    + left. exists first. split; [reflexivity|]. right. split; [left|]; reflexivity.
Qed.

(** The ways [manualCheck] runs: it panics on the choice of the URL;
    or it stops with an error at the building of the request, at the
    dump, or at the making of the POST; or it sends the POST and goes
    on with the answer. *)
Lemma manualCheck_cases (ee issuer : x509.Certificate) :
  let m := manualCheck flags world ee issuer in
  (m = ([], Panics 0 0)
   /\ x509.OCSPServer ee = []
   /\ (respURL flags = None \/ respURL flags = Some ""))
  \/ (exists u err,
         manualCheck_ocspURL flags ee = ret u
         /\ m = (manualCheck_logs ee issuer u, Returns (Some err))
         /\ forall req, ~ can_post flags world ee issuer u req)
  \/ (exists u req err,
         manualCheck_ocspURL flags ee = ret u
         /\ m = ((manualCheck_logs ee issuer u
                  ++ dump_events flags "OCSP Request" req)%list,
                 Returns (Some err))
         /\ forall req, ~ can_post flags world ee issuer u req)
  \/ (exists u req,
         can_post flags world ee issuer u req
         /\ let answer :=
              match client_Do_POST world u req with
              | Err err =>
                ret (Some (Errorf "error sending post request: %v" [ArgErr (Some err)]))
              | Ok resp => parseResponse flags world (fst (http.Body resp)) issuer
              end in
            m = ((manualCheck_logs ee issuer u
                  ++ dump_events flags "OCSP Request" req
                  ++ [HttpPost u "application/ocsp-request" req]
                  ++ trace answer)%list,
                 result_of answer)).
Proof.
  intros m.
  destruct (manualCheck_ocspURL_cases ee) as [(u & Hurl & Hwhy)|(Hurl & Hs & Hr)].
  2:{ left. split; [|split; assumption].
      unfold m, manualCheck. rewrite Hurl. reflexivity. }
  right.
  assert (Hm : m = bind (manualCheck_logs ee issuer u, Returns tt)
                 (fun _ =>
                    match ocsp_CreateRequest world ee issuer with
                    | Err err =>
                      ret (Some (Errorf "error creating ocsp request: %v"
                                        [ArgErr (Some err)]))
                    | Ok ocspReq =>
                      bind (dumpBlock flags world "OCSP Request" ocspReq)
                        (fun err =>
                           match err with
                           | Some err => ret (Some err)
                           | None =>
                             match http_NewRequest_POST world u with
                             | Some err =>
                               ret (Some (Errorf "error creating http post request: %v"
                                                 [ArgErr (Some err)]))
                             | None =>
                               bind (emit (HttpPost u "application/ocsp-request" ocspReq))
                                 (fun _ =>
                                    match client_Do_POST world u ocspReq with
                                    | Err err =>
                                      ret (Some (Errorf "error sending post request: %v"
                                                        [ArgErr (Some err)]))
                                    | Ok resp =>
                                      parseResponse flags world (fst (http.Body resp))
                                        issuer
                                    end)
                             end
                           end)
                    end)).
  { unfold m, manualCheck. rewrite Hurl, bind_ret_l.
    unfold log_Printf, emit, manualCheck_logs. rewrite !bind_returns. reflexivity. }
  rewrite bind_returns in Hm. cbv beta in Hm.
  destruct (ocsp_CreateRequest world ee issuer) as [req|e] eqn:Hreq.
  2:{ left. exists u, (Errorf "error creating ocsp request: %v" [ArgErr (Some e)]).
      split; [exact Hurl|]. split.
      - rewrite Hm. cbn [ret trace result_of fst snd]. rewrite app_nil_r. reflexivity.
      - intros req' (_ & H & _). congruence. }
  rewrite dumpBlock_eq, bind_returns in Hm. cbv beta in Hm.
  destruct (is_set (dump flags)) eqn:Hdump.
  - destruct (pem_Encode_Stdout world _) as [e|] eqn:Hpem.
    + right; left. exists u, req, e. split; [exact Hurl|]. split.
      * rewrite Hm. cbn [ret trace result_of fst snd]. rewrite app_nil_r. reflexivity.
      * intros req' (_ & H & Hd & _). rewrite Hreq in H. injection H as <-.
        specialize (Hd Hdump). congruence.
    + destruct (http_NewRequest_POST world u) as [e|] eqn:Hnew.
      * right; left.
        exists u, req, (Errorf "error creating http post request: %v" [ArgErr (Some e)]).
        split; [exact Hurl|]. split.
        -- rewrite Hm. cbn [ret trace result_of fst snd]. rewrite app_nil_r. reflexivity.
        -- intros req' (_ & _ & _ & H). congruence.
      * right; right. exists u, req. split.
        -- repeat split; try assumption. intros _; exact Hpem.
        -- cbv zeta. rewrite Hm. unfold emit. rewrite bind_returns.
           cbn [trace result_of fst snd]. reflexivity.
  - destruct (http_NewRequest_POST world u) as [e|] eqn:Hnew.
    + right; left.
      exists u, req, (Errorf "error creating http post request: %v" [ArgErr (Some e)]).
      split; [exact Hurl|]. split.
      * rewrite Hm. cbn [ret trace result_of fst snd]. rewrite app_nil_r. reflexivity.
      * intros req' (_ & _ & _ & H). congruence.
    + right; right. exists u, req. split.
      * repeat split; try assumption. intros H; congruence.
      * cbv zeta. rewrite Hm. unfold emit. rewrite bind_returns.
        cbn [trace result_of fst snd]. reflexivity.
Qed.

Lemma can_post_url (ee issuer : x509.Certificate) (u : string) (req : list byte) :
  can_post flags world ee issuer u req -> manualCheck_ocspURL flags ee = ret u.
Proof.
  intros ([[Hr Hne]|[Hr Hs]] & _).
  - apply manualCheck_ocspURL_override; assumption.
  - destruct (x509.OCSPServer ee) as [|first more] eqn:E; [discriminate|].
    injection Hs as <-. eapply manualCheck_ocspURL_first; eassumption.
Qed.

Lemma result_of_pair {A : Type} (t : list event) (o : outcome A) :
  result_of (t, o) = o.
Proof. reflexivity. Qed.

Lemma ret_inj {A : Type} (a b : A) : ret a = ret b -> a = b.
Proof. intros H; injection H as ->; reflexivity. Qed.

Lemma avoids_post_answer (p : event -> bool) (issuer : x509.Certificate)
  (u : string) (req : list byte) :
  (forall b, p (StdoutPEM b) = false) ->
  (forall l, p (LogPrintln l) = false) ->
  (forall f a, p (LogPrintf f a) = false) ->
  avoids p
    match client_Do_POST world u req with
    | Err err => ret (Some (Errorf "error sending post request: %v" [ArgErr (Some err)]))
    | Ok resp => parseResponse flags world (fst (http.Body resp)) issuer
    end.
Proof.
  intros H1 H2 H3. destruct (client_Do_POST world u req); [|apply avoids_ret].
  apply avoids_parseResponse; assumption.
Qed.

Lemma filter_network_dump_events (type : string) (bytes : list byte) :
  filter is_network (dump_events flags type bytes) = [].
Proof. unfold dump_events. destruct (is_set (dump flags)); reflexivity. Qed.

(** X5.  The network traffic of [manualCheck] is at most one request:
    when there is a responder URL (the non-empty override, or else the
    first OCSP server of the certificate), the request is built, its
    dump (if on) is written and the POST is made, the traffic is
    exactly the POST of that request to that URL with the content type
    application/ocsp-request; otherwise [manualCheck] sends nothing. *)
Theorem manualCheck_posts_exactly (ee issuer : x509.Certificate) :
  (forall u req,
      can_post flags world ee issuer u req ->
      filter is_network (trace (manualCheck flags world ee issuer))
      = [HttpPost u "application/ocsp-request" req])
  /\
  ((forall u req, ~ can_post flags world ee issuer u req) ->
   filter is_network (trace (manualCheck flags world ee issuer)) = []).
Proof.
  pose proof (manualCheck_cases ee issuer) as Hcases. cbv zeta in Hcases.
  split.
  - intros u req Hcan.
    destruct Hcases as [(Hm & Hs & Hr)|[(u' & err & Hurl & Hm & Hno)
                        |[(u' & req' & err & Hurl & Hm & Hno)|(u' & req' & Hcan' & Hm)]]].
    + pose proof (can_post_url _ _ _ _ Hcan) as Hurl.
      rewrite (manualCheck_ocspURL_empty _ _ Hr Hs) in Hurl. discriminate.
    + pose proof (can_post_url _ _ _ _ Hcan) as Hurl'. rewrite Hurl in Hurl'.
      apply ret_inj in Hurl'. subst u'. destruct (Hno req Hcan).
    + pose proof (can_post_url _ _ _ _ Hcan) as Hurl'. rewrite Hurl in Hurl'.
      apply ret_inj in Hurl'. subst u'. destruct (Hno req Hcan).
    + pose proof (can_post_url _ _ _ _ Hcan) as Hurl.
      pose proof (can_post_url _ _ _ _ Hcan') as Hurl'. rewrite Hurl in Hurl'.
      apply ret_inj in Hurl'. subst u'.
      assert (req' = req).
      { destruct Hcan as (_ & H1 & _), Hcan' as (_ & H2 & _). congruence. }
      subst req'. rewrite Hm. cbn [trace fst].
      rewrite !filter_app, filter_network_dump_events.
      rewrite (avoids_filter is_network _
                 (avoids_post_answer is_network issuer u req
                    (fun _ => eq_refl) (fun _ => eq_refl) (fun _ _ => eq_refl))).
      reflexivity.
  - intros Hnone.
    destruct Hcases as [(Hm & _)|[(u' & err & _ & Hm & _)
                        |[(u' & req' & err & _ & Hm & _)|(u' & req' & Hcan' & _)]]].
    + rewrite Hm. reflexivity.
    + rewrite Hm. reflexivity.
    + rewrite Hm. cbn [trace fst].
      rewrite filter_app, filter_network_dump_events. reflexivity.
    + destruct (Hnone _ _ Hcan').
Qed.

(** X6.  [manualCheck] never exits the process, and it panics in one
    case only: when no responder is configured and the certificate has
    no OCSP server (index out of range [0] with length 0). *)
Theorem manualCheck_outcome (ee issuer : x509.Certificate) :
  (forall c, result_of (manualCheck flags world ee issuer) <> Exits c)
  /\
  (forall i n,
      result_of (manualCheck flags world ee issuer) = Panics i n
      <-> i = 0%nat /\ n = 0%nat
          /\ x509.OCSPServer ee = []
          /\ (respURL flags = None \/ respURL flags = Some "")).
Proof.
  pose proof (manualCheck_cases ee issuer) as Hcases. cbv zeta in Hcases.
  assert (Hanswer : forall u req,
             exists r,
               result_of
                 match client_Do_POST world u req with
                 | Err err =>
                   ret (Some (Errorf "error sending post request: %v" [ArgErr (Some err)]))
                 | Ok resp => parseResponse flags world (fst (http.Body resp)) issuer
                 end = Returns r).
  { intros u req. destruct (client_Do_POST world u req); [|eexists; reflexivity].
    apply parseResponse_returns. }
  split.
  - intros c.
    destruct Hcases as [(Hm & _)|[(u' & err & _ & Hm & _)
                        |[(u' & req' & err & _ & Hm & _)|(u' & req' & _ & Hm)]]];
      rewrite Hm; try discriminate.
    rewrite result_of_pair. destruct (Hanswer u' req') as [r Hr].
    rewrite Hr. discriminate.
  - intros i n. split.
    + destruct Hcases as [(Hm & Hs & Hr)|[(u' & err & _ & Hm & _)
                          |[(u' & req' & err & _ & Hm & _)|(u' & req' & _ & Hm)]]];
        rewrite Hm; try discriminate.
      * intros H; injection H as <- <-. repeat split; assumption.
      * rewrite result_of_pair. destruct (Hanswer u' req') as [r Hr].
        rewrite Hr. discriminate.
    + intros (-> & -> & Hs & Hr). rewrite (manualCheck_empty _ _ _ _ Hr Hs). reflexivity.
Qed.

Lemma manualCheck_nil_inv (ee issuer : x509.Certificate) :
  result_of (manualCheck flags world ee issuer) = Returns None ->
  exists u req answer resp,
    can_post flags world ee issuer u req
    /\ client_Do_POST world u req = Ok answer
    /\ ocsp_ParseResponse world (fst (http.Body answer)) issuer = Ok resp.
Proof.
  pose proof (manualCheck_cases ee issuer) as Hcases. cbv zeta in Hcases.
  destruct Hcases as [(Hm & _)|[(u' & err & _ & Hm & _)
                      |[(u' & req' & err & _ & Hm & _)|(u & req & Hcan & Hm)]]];
    rewrite Hm; try discriminate.
  rewrite result_of_pair.
  destruct (client_Do_POST world u req) as [answer|err] eqn:Hdo; [|discriminate].
  intros Hnil.
  pose proof (parseResponse_outcomes flags world (fst (http.Body answer)) issuer) as Hp.
  rewrite Hnil in Hp. destruct Hp as (resp & line & Hparse & _).
  exists u, req, answer, resp.
  split; [exact Hcan|split; [exact Hdo|exact Hparse]].
Qed.

(** X7.  [manualCheck] returns nil only after a responder has answered
    and [ocsp.ParseResponse] has accepted the body of the answer
    against the issuer: the request was built and posted to the
    responder URL, and the POST succeeded. *)
Theorem manualCheck_nil_means_answer (ee issuer : x509.Certificate) :
  result_of (manualCheck flags world ee issuer) = Returns None ->
  exists u req answer resp,
    can_post flags world ee issuer u req
    /\ client_Do_POST world u req = Ok answer
    /\ ocsp_ParseResponse world (fst (http.Body answer)) issuer = Ok resp.
Proof. exact (manualCheck_nil_inv ee issuer). Qed.

End ManualCheck_results.

(** X5 and X7 at a sample: with [-nostaple], the request for [leaf] is
    posted to its first OCSP server, and the check returns nil. *)
Lemma manualCheck_posts_exactly_witness :
  filter is_network
    (trace (manualCheck flags_url_nostaple
              (world_of [[leaf; ca]] None (ocsp.response_of ocsp.good) leaf) leaf ca))
  = [HttpPost "http://ocsp.example.com" "application/ocsp-request" [x30; x00]].
Proof.
  apply (proj1 (manualCheck_posts_exactly flags_url_nostaple
                  (world_of [[leaf; ca]] None (ocsp.response_of ocsp.good) leaf)
                  leaf ca)).
  split; [right; split; [right|]; reflexivity|].
  split; [reflexivity|]. split; [discriminate|reflexivity].
Defined.

Lemma manualCheck_nil_means_answer_witness :
  exists u req answer resp,
    can_post flags_url_nostaple
      (world_of [[leaf; ca]] None (ocsp.response_of ocsp.good) leaf) leaf ca u req
    /\ client_Do_POST (world_of [[leaf; ca]] None (ocsp.response_of ocsp.good) leaf) u req
       = Ok answer
    /\ ocsp_ParseResponse (world_of [[leaf; ca]] None (ocsp.response_of ocsp.good) leaf)
         (fst (http.Body answer)) ca
       = Ok resp.
Proof.
  apply (manualCheck_nil_means_answer flags_url_nostaple
           (world_of [[leaf; ca]] None (ocsp.response_of ocsp.good) leaf) leaf ca).
  reflexivity.
Defined.

(** ** processURL: one GET, and what nil means *)

Section ProcessURL_results.
Variable flags : Flags.
Variable world : World.

(** X8.  Whatever the world answers, [processURL] performs exactly one
    GET, that of the target URL: neither the stapled nor the manual
    check fetches anything else with GET. *)
Theorem processURL_one_GET :
  filter is_HttpGet (trace (processURL flags world)) = [HttpGet (destURL flags)].
Proof.
  unfold processURL. rewrite bind_trace. cbn [emit trace result_of fst snd app filter
                                                is_HttpGet].
  f_equal. apply avoids_filter.
  unfold grabServerCert, grabIssuerCert, log_Println, emit.
  repeat first
    [ apply avoids_manualCheck; reflexivity
    | apply avoids_stapledCheck; reflexivity
    | avoids_step ].
Qed.

Lemma stapledCheck_result (ee issuer : x509.Certificate) (staple : list byte) :
  result_of (stapledCheck flags world ee issuer staple)
  = result_of (parseResponse flags world staple issuer).
Proof.
  unfold stapledCheck, log_Printf, emit. rewrite !bind_returns. reflexivity.
Qed.

Lemma log_then_result {A : Type} (line : string) (m : M A) :
  result_of (bind (log_Println line) (fun _ => m)) = result_of m.
Proof. unfold log_Println, emit. rewrite bind_returns. reflexivity. Qed.

Lemma processURL_nil_inv :
  result_of (processURL flags world) = Returns None ->
  exists resp connState server issuer chain chains,
    http_Get world None (destURL flags) = Ok resp
    /\ http.TLS resp = Some connState
    /\ tls.VerifiedChains connState = (server :: issuer :: chain) :: chains
    /\ ((exists staple parsed,
            tls.OCSPResponse connState = Some staple
            /\ is_set (nostaple flags) = false
            /\ ocsp_ParseResponse world staple issuer = Ok parsed)
        \/ ((tls.OCSPResponse connState = None \/ is_set (nostaple flags) = true)
            /\ exists u req answer parsed,
                can_post flags world server issuer u req
                /\ client_Do_POST world u req = Ok answer
                /\ ocsp_ParseResponse world (fst (http.Body answer)) issuer
                   = Ok parsed)).
Proof.
  destruct (http_Get world None (destURL flags)) as [resp|err] eqn:Hget.
  2:{ unfold processURL. rewrite Hget. discriminate. }
  destruct (http.TLS resp) as [connState|] eqn:Htls.
  2:{ unfold processURL. rewrite Hget, Htls. discriminate. }
  destruct (tls.VerifiedChains connState) as [|[|server [|issuer chain]] chains] eqn:Hch.
  1-3: unfold processURL, grabServerCert, grabIssuerCert; rewrite Hget, Htls, Hch;
    discriminate.
  rewrite (processURL_connected flags world _ _ _ _ _ _ Hget Htls Hch).
  unfold emit at 1. rewrite bind_returns, result_of_pair.
  intros Hnil. exists resp, connState, server, issuer, chain, chains.
  repeat (split; [first [reflexivity|assumption]|]).
  destruct (tls.OCSPResponse connState) as [staple|].
  - destruct (is_set (nostaple flags)).
    + right. split; [right; reflexivity|].
      rewrite log_then_result in Hnil. exact (manualCheck_nil_inv _ _ _ _ Hnil).
    + left. rewrite log_then_result, stapledCheck_result in Hnil.
      pose proof (parseResponse_outcomes flags world staple issuer) as Hp.
      rewrite Hnil in Hp. destruct Hp as (parsed & line & Hparse & _).
      exists staple, parsed. repeat split. exact Hparse.
  - right. split; [left; reflexivity|].
    rewrite log_then_result in Hnil. exact (manualCheck_nil_inv _ _ _ _ Hnil).
Qed.

(** X9.  [processURL] returns nil only if an OCSP response was
    interpreted: the connection gave its state and a first verified
    chain of at least two certificates, and [ocsp.ParseResponse]
    accepted, against the second certificate of that chain, either the
    staple (when present and not bypassed) or the body of the
    responder's answer to the posted request. *)
Theorem processURL_nil_means_response :
  result_of (processURL flags world) = Returns None ->
  exists resp connState server issuer chain chains,
    http_Get world None (destURL flags) = Ok resp
    /\ http.TLS resp = Some connState
    /\ tls.VerifiedChains connState = (server :: issuer :: chain) :: chains
    /\ ((exists staple parsed,
            tls.OCSPResponse connState = Some staple
            /\ is_set (nostaple flags) = false
            /\ ocsp_ParseResponse world staple issuer = Ok parsed)
        \/ ((tls.OCSPResponse connState = None \/ is_set (nostaple flags) = true)
            /\ exists u req answer parsed,
                can_post flags world server issuer u req
                /\ client_Do_POST world u req = Ok answer
                /\ ocsp_ParseResponse world (fst (http.Body answer)) issuer
                   = Ok parsed)).
Proof. exact processURL_nil_inv. Qed.

End ProcessURL_results.

(** ** processFile: which issuer is fetched, and what follows *)

Section ProcessFile_results.
Context {asn1 : Asn1}.
Variable flags : Flags.
Variable world : World.

Lemma processFile_scan_app (l1 l2 : list x509.Extension) :
  forall aiaURL,
    processFile_scan (l1 ++ l2) aiaURL =
    match processFile_scan l1 aiaURL with
    | Ok aiaURL' => processFile_scan l2 aiaURL'
    | Err err => Err err
    end.
Proof.
  induction l1 as [|ext l1 IH]; intros aiaURL; cbn [app processFile_scan]; [reflexivity|].
  destruct (Equal (x509.Id ext) authorityInfoAccess); [|apply IH].
  destruct (decodeAIA (x509.Value ext)) as [url [err|]]; [reflexivity|].
  destruct (0 <? String.length url)%nat; apply IH.
Qed.

Lemma length_pos (url : string) : url <> "" -> (0 <? String.length url)%nat = true.
Proof. destruct url; [congruence|reflexivity]. Qed.

(** X10.  Only the AIA extensions of the certificate count: the scan
    of the extensions gives the same result on the list of all
    extensions and on the list of those whose OID is
    1.3.6.1.5.5.7.1.1; no other extension is decoded. *)
Theorem processFile_scan_AIA_only (extensions : list x509.Extension)
  (aiaURL : option string) :
  processFile_scan extensions aiaURL
  = processFile_scan (filter is_AIA extensions) aiaURL.
Proof.
  revert aiaURL. induction extensions as [|ext l IH]; intros aiaURL; [reflexivity|].
  cbn [filter processFile_scan]. unfold is_AIA at 1.
  destruct (Equal (x509.Id ext) authorityInfoAccess) eqn:E; [|apply IH].
  cbn [processFile_scan]. rewrite E.
  destruct (decodeAIA (x509.Value ext)) as [url [err|]]; [reflexivity|].
  destruct (0 <? String.length url)%nat; apply IH.
Qed.

(** The scan of a list of extensions with one AIA extension, wherever
    it stands: the result is decided by the decoding of that
    extension. *)
Lemma processFile_scan_one_AIA (before : list x509.Extension) (ext : x509.Extension)
  (after : list x509.Extension) :
  (forall e, In e before -> x509.Id e <> authorityInfoAccess) ->
  x509.Id ext = authorityInfoAccess ->
  (forall e, In e after -> x509.Id e <> authorityInfoAccess) ->
  processFile_scan (before ++ ext :: after) None =
  match decodeAIA (x509.Value ext) with
  | (_, Some err) => Err err
  | (url, None) => if (0 <? String.length url)%nat then Ok (Some url) else Ok None
  end.
Proof.
  intros Hbefore Hid Hafter.
  assert (Hskip : forall l aiaURL,
             (forall e, In e l -> x509.Id e <> authorityInfoAccess) ->
             processFile_scan l aiaURL = Ok aiaURL).
  { intros l aiaURL Hl. apply processFile_scan_none.
    intros e He Heq. destruct (Hl e He Heq). }
  rewrite processFile_scan_app, (Hskip before None Hbefore).
  cbn [processFile_scan]. apply Equal_eq in Hid. rewrite Hid.
  destruct (decodeAIA (x509.Value ext)) as [url [err|]]; [reflexivity|].
  destruct (0 <? String.length url)%nat; apply Hskip; exact Hafter.
Qed.

(** X11.  The AIA extension of the certificate decides, wherever it
    stands among the other extensions.  Let the file be read, decoded
    and parsed as [endEntity], and let [endEntity] have one extension
    with the OID 1.3.6.1.5.5.7.1.1, before and after which stand any
    extensions with other OIDs.  If [decodeAIA] gives a non-empty URL
    for it, [processFile] reads the file, logs the fetch of that URL
    and performs the GET of that URL.  If [decodeAIA] gives an error
    for it, [processFile] returns that error, and the reading of the
    file is its only event: nothing is fetched. *)
Theorem processFile_AIA_extension_decides (certPEM : list byte) (block : pem.Block)
  (endEntity : x509.Certificate) (before : list x509.Extension)
  (ext : x509.Extension) (after : list x509.Extension) :
  ioutil_ReadFile world (certPath flags) = Ok certPEM ->
  pem_Decode world certPEM = Some block ->
  x509_ParseCertificate world (pem.Bytes block) = Ok endEntity ->
  x509.Extensions endEntity = (before ++ ext :: after)%list ->
  (forall e, In e before -> x509.Id e <> authorityInfoAccess) ->
  x509.Id ext = authorityInfoAccess ->
  (forall e, In e after -> x509.Id e <> authorityInfoAccess) ->
  (forall url,
      decodeAIA (x509.Value ext) = (url, None) ->
      url <> "" ->
      exists rest,
        trace (processFile flags world)
        = ([ReadFile (certPath flags);
            LogPrintf "Fetching issuer certificate from %s" [ArgString url];
            HttpGet url] ++ rest)%list)
  /\
  (forall url err,
      decodeAIA (x509.Value ext) = (url, Some err) ->
      processFile flags world = ([ReadFile (certPath flags)], Returns (Some err))).
Proof.
  intros Hread Hpem Hparse Hexts Hbefore Hid Hafter.
  pose proof (processFile_scan_one_AIA before ext after Hbefore Hid Hafter) as Hscan.
  rewrite <- Hexts in Hscan. split.
  - intros url Hext Hurl. rewrite Hext, (length_pos _ Hurl) in Hscan.
    unfold processFile. rewrite Hread, Hpem, Hparse, Hscan.
    unfold log_Printf, emit. rewrite !bind_trace. cbn [trace result_of fst snd app].
    eexists. reflexivity.
  - intros url err Hext. rewrite Hext in Hscan.
    exact (processFile_decode_error flags world certPEM block endEntity err
             Hread Hpem Hparse Hscan).
Qed.

(** [processFile] once the file has given a certificate and the scan a
    URL. *)
Lemma processFile_with_URL (certPEM : list byte) (block : pem.Block)
  (endEntity : x509.Certificate) (url : string) :
  ioutil_ReadFile world (certPath flags) = Ok certPEM ->
  pem_Decode world certPEM = Some block ->
  x509_ParseCertificate world (pem.Bytes block) = Ok endEntity ->
  processFile_scan (x509.Extensions endEntity) None = Ok (Some url) ->
  let fetch :=
    match http_Get world (Some 10) url with
    | Err err => ret (Some err)
    | Ok response =>
      match http.Body response with
      | (_, Some err) => ret (Some err)
      | (certBytes, None) =>
        match x509_ParseCertificate world certBytes with
        | Err err => ret (Some err)
        | Ok fetchedCert => manualCheck flags world endEntity fetchedCert
        end
      end
    end in
  processFile flags world =
  (([ReadFile (certPath flags);
     LogPrintf "Fetching issuer certificate from %s" [ArgString url];
     HttpGet url] ++ trace fetch)%list,
   result_of fetch).
Proof.
  intros Hread Hpem Hparse Hscan fetch. unfold processFile.
  rewrite Hread, Hpem, Hparse, Hscan.
  unfold log_Printf, emit. rewrite !bind_returns. reflexivity.
Qed.

(** X13.  After the scan has given a URL, [processFile] fetches the
    issuer with a GET of that URL (timeout 10 seconds).  If the GET,
    the reading of the body or the parsing of the body as a
    certificate fails, it returns that error and sends no OCSP
    request.  Otherwise it goes on as [manualCheck] of the certificate
    of the file against the fetched certificate, whose events and
    result are its own. *)
Theorem processFile_fetch_then_check (certPEM : list byte) (block : pem.Block)
  (endEntity : x509.Certificate) (url : string) :
  ioutil_ReadFile world (certPath flags) = Ok certPEM ->
  pem_Decode world certPEM = Some block ->
  x509_ParseCertificate world (pem.Bytes block) = Ok endEntity ->
  processFile_scan (x509.Extensions endEntity) None = Ok (Some url) ->
  let fetched := [ReadFile (certPath flags);
                  LogPrintf "Fetching issuer certificate from %s" [ArgString url];
                  HttpGet url] in
  (forall err,
      http_Get world (Some 10) url = Err err
      \/ (exists response bytes,
             http_Get world (Some 10) url = Ok response
             /\ (http.Body response = (bytes, Some err)
                 \/ http.Body response = (bytes, None)
                    /\ x509_ParseCertificate world bytes = Err err)) ->
      processFile flags world = (fetched, Returns (Some err)))
  /\
  (forall response certBytes fetchedCert,
      http_Get world (Some 10) url = Ok response ->
      http.Body response = (certBytes, None) ->
      x509_ParseCertificate world certBytes = Ok fetchedCert ->
      processFile flags world =
      ((fetched ++ trace (manualCheck flags world endEntity fetchedCert))%list,
       result_of (manualCheck flags world endEntity fetchedCert))).
Proof.
  intros Hread Hpem Hparse Hscan fetched.
  pose proof (processFile_with_URL _ _ _ _ Hread Hpem Hparse Hscan) as Hrun.
  cbv zeta in Hrun. split.
  - intros err [Hget|(response & bytes & Hget & [Hbody|[Hbody Hcert]])];
      rewrite Hrun, Hget; try rewrite Hbody; try rewrite Hcert; reflexivity.
  - intros response certBytes fetchedCert Hget Hbody Hcert.
    rewrite Hrun, Hget, Hbody, Hcert. reflexivity.
Qed.

(** X14.  A file that cannot be read, holds no PEM block, or holds a
    block that is not a certificate does not make [processFile] return
    an error: the process logs the failure and exits with the status 1
    right after the reading of the file, with no network traffic. *)
Theorem processFile_unusable_file_exits :
  (exists err, ioutil_ReadFile world (certPath flags) = Err err)
  \/ (exists certPEM,
         ioutil_ReadFile world (certPath flags) = Ok certPEM
         /\ (pem_Decode world certPEM = None
             \/ exists block err,
                 pem_Decode world certPEM = Some block
                 /\ x509_ParseCertificate world (pem.Bytes block) = Err err)) ->
  result_of (processFile flags world) = Exits 1
  /\ exists format args,
      trace (processFile flags world)
      = [ReadFile (certPath flags); LogPrintf format args].
Proof.
  unfold processFile.
  intros [(err & Hread)|(certPEM & Hread & [Hpem|(block & err & Hpem & Hparse)])];
    rewrite Hread; try rewrite Hpem; try rewrite Hparse;
    (split; [reflexivity|eexists _, _; reflexivity]).
Qed.

End ProcessFile_results.

Section ProcessFile_nil.
Context {asn1 : Asn1}.
Variable flags : Flags.
Variable world : World.

Lemma processFile_nil_inv :
  result_of (processFile flags world) = Returns None ->
  exists certPEM block endEntity url response certBytes fetchedCert,
    ioutil_ReadFile world (certPath flags) = Ok certPEM
    /\ pem_Decode world certPEM = Some block
    /\ x509_ParseCertificate world (pem.Bytes block) = Ok endEntity
    /\ processFile_scan (x509.Extensions endEntity) None = Ok (Some url)
    /\ http_Get world (Some 10) url = Ok response
    /\ http.Body response = (certBytes, None)
    /\ x509_ParseCertificate world certBytes = Ok fetchedCert
    /\ result_of (manualCheck flags world endEntity fetchedCert) = Returns None.
Proof.
  destruct (ioutil_ReadFile world (certPath flags)) as [certPEM|e] eqn:Hread.
  2:{ unfold processFile. rewrite Hread. discriminate. }
  destruct (pem_Decode world certPEM) as [block|] eqn:Hpem.
  2:{ unfold processFile. rewrite Hread, Hpem. discriminate. }
  destruct (x509_ParseCertificate world (pem.Bytes block)) as [endEntity|e] eqn:Hparse.
  2:{ unfold processFile. rewrite Hread, Hpem, Hparse. discriminate. }
  destruct (processFile_scan (x509.Extensions endEntity) None) as [[url|]|e] eqn:Hscan.
  2,3: unfold processFile; rewrite Hread, Hpem, Hparse, Hscan; discriminate.
  rewrite (processFile_with_URL flags world _ _ _ _ Hread Hpem Hparse Hscan).
  rewrite result_of_pair.
  destruct (http_Get world (Some 10) url) as [response|e] eqn:Hget; [|discriminate].
  destruct (http.Body response) as [certBytes [e|]] eqn:Hbody; [discriminate|].
  destruct (x509_ParseCertificate world certBytes) as [fetchedCert|e] eqn:Hcert;
    [|discriminate].
  intros Hnil.
  exists certPEM, block, endEntity, url, response, certBytes, fetchedCert.
  repeat (split; [first [reflexivity|assumption]|]). exact Hnil.
Qed.

(** X15.  [processFile] returns nil only if an OCSP response for the
    certificate of the file was interpreted: the file named by the
    flag was read, its first PEM block parsed as the certificate
    [endEntity], an AIA extension of [endEntity] gave a URL, the GET of
    that URL (timeout 10 seconds) gave a body that parsed as the
    certificate [fetchedCert], the request for [endEntity] and
    [fetchedCert] was posted to a responder, and [ocsp.ParseResponse]
    accepted the body of the answer against [fetchedCert]. *)
Theorem processFile_nil_means_response :
  result_of (processFile flags world) = Returns None ->
  exists certPEM block endEntity url response certBytes fetchedCert u req answer parsed,
    ioutil_ReadFile world (certPath flags) = Ok certPEM
    /\ pem_Decode world certPEM = Some block
    /\ x509_ParseCertificate world (pem.Bytes block) = Ok endEntity
    /\ processFile_scan (x509.Extensions endEntity) None = Ok (Some url)
    /\ http_Get world (Some 10) url = Ok response
    /\ http.Body response = (certBytes, None)
    /\ x509_ParseCertificate world certBytes = Ok fetchedCert
    /\ can_post flags world endEntity fetchedCert u req
    /\ client_Do_POST world u req = Ok answer
    /\ ocsp_ParseResponse world (fst (http.Body answer)) fetchedCert = Ok parsed.
Proof.
  intros Hnil. apply processFile_nil_inv in Hnil.
  destruct Hnil as (certPEM & block & endEntity & url & response & certBytes
                    & fetchedCert & Hread & Hpem & Hparse & Hscan & Hget & Hbody
                    & Hcert & Hcheck).
  apply manualCheck_nil_inv in Hcheck.
  destruct Hcheck as (u & req & answer & parsed & Hcan & Hdo & Hresp).
  exists certPEM, block, endEntity, url, response, certBytes, fetchedCert,
    u, req, answer, parsed.
  repeat (split; [assumption|]). exact Hresp.
Qed.

(** ** main: the exit of the process *)

(** X16.  [main] rejects its inputs before any scenario runs: with
    neither a URL nor a file, and with a URL that does not begin with
    "https" (whether or not a file is given), it logs the reason and
    the process exits with the status 1, and the log line is its only
    event: no connection is made and no file is read. *)
Theorem main_rejects_inputs :
  (destURL flags = "" /\ certPath flags = "" ->
   main flags world = ([LogPrintf "must provide a url or cert\n" []], Exits 1))
  /\
  (destURL flags <> "" /\ String.prefix "https" (destURL flags) = false ->
   main flags world = ([LogPrintf "must provide a https url\n" []], Exits 1)).
Proof.
  unfold main. split.
  - intros [-> ->]. reflexivity.
  - intros [Hne Hpre]. apply String.eqb_neq in Hne. rewrite Hne, Hpre, andb_false_r.
    reflexivity.
Qed.

Lemma main_cases :
  (certPath flags <> "" \/ destURL flags <> "") ->
  (destURL flags <> "" -> String.prefix "https" (destURL flags) = true) ->
  main flags world =
  (bind (if negb (destURL flags =? "")%string
         then
           bind (processURL flags world)
             (fun err =>
                match err with
                | Some err => log_Fatalf "Error processing URL: %v\n" [ArgErr (Some err)]
                | None => ret tt
                end)
         else ret tt)
     (fun _ =>
        if negb (certPath flags =? "")%string
        then
          bind (processFile flags world)
            (fun err =>
               match err with
               | Some err => log_Fatalf "Error processing file: %v\n" [ArgErr (Some err)]
               | None => ret tt
               end)
        else ret tt)).
Proof.
  intros Hsome Hhttps. unfold main.
  destruct (destURL flags =? "")%string eqn:Eu.
  - destruct (certPath flags =? "")%string eqn:Ep; [|reflexivity].
    apply String.eqb_eq in Eu, Ep. destruct Hsome; congruence.
  - apply String.eqb_neq in Eu. rewrite (Hhttps Eu), andb_false_r. reflexivity.
Qed.

Lemma scenario_result (m : M (option error)) (format : string) :
  result_of
    (bind m (fun err =>
               match err with
               | Some err => log_Fatalf format [ArgErr (Some err)]
               | None => ret tt
               end))
  = Returns tt
  <-> result_of m = Returns None.
Proof.
  destruct m as [t [[err|]|i n|c]]; cbn; split; intros H; try discriminate; reflexivity.
Qed.

(** X17.  The process ends normally exactly when every scenario asked
    for has returned nil.  Let an input be given, and the URL, if
    given, begin with "https".  Then [main] returns (instead of
    exiting with the status 1, or panicking) if and only if
    [processURL] returns nil when a URL is given and [processFile]
    returns nil when a file is given. *)
Theorem main_exit_status :
  (certPath flags <> "" \/ destURL flags <> "") ->
  (destURL flags <> "" -> String.prefix "https" (destURL flags) = true) ->
  result_of (main flags world) = Returns tt
  <-> (destURL flags = "" \/ result_of (processURL flags world) = Returns None)
      /\ (certPath flags = "" \/ result_of (processFile flags world) = Returns None).
Proof.
  intros Hsome Hhttps. rewrite (main_cases Hsome Hhttps).
  pose proof (scenario_result (processURL flags world) "Error processing URL: %v\n") as HU.
  pose proof (scenario_result (processFile flags world) "Error processing file: %v\n")
    as HF.
  destruct (destURL flags =? "")%string eqn:Eu; cbn [negb].
  - apply String.eqb_eq in Eu. rewrite bind_ret_l.
    destruct (certPath flags =? "")%string eqn:Ep; cbn [negb].
    + apply String.eqb_eq in Ep. split; [intros _; split; left; assumption|reflexivity].
    + apply String.eqb_neq in Ep. rewrite HF. split.
      * intros H. split; [left; exact Eu|right; exact H].
      * intros [_ [H|H]]; [contradiction|exact H].
  - apply String.eqb_neq in Eu.
    destruct (bind (processURL flags world) _) as [t [[]|i n|c]] eqn:Eb.
    + assert (HU' : result_of (processURL flags world) = Returns None).
      { apply HU. reflexivity. }
      rewrite bind_returns, result_of_pair.
      destruct (certPath flags =? "")%string eqn:Ep; cbn [negb].
      * apply String.eqb_eq in Ep.
        split; [intros _; split; [right; exact HU'|left; exact Ep]|reflexivity].
      * apply String.eqb_neq in Ep. rewrite HF. split.
        -- intros H. split; right; assumption.
        -- intros [_ [H|H]]; [contradiction|exact H].
    + split; [discriminate|]. intros [[H|H] _]; [contradiction|].
      apply HU in H. discriminate.
    + split; [discriminate|]. intros [[H|H] _]; [contradiction|].
      apply HU in H. discriminate.
Qed.

End ProcessFile_nil.

(** ** The dump *)

Section Dump_results.
Context {asn1 : Asn1}.
Variable flags : Flags.
Variable world : World.
Hypothesis dump_off : is_set (dump flags) = false.

Lemma dumpBlock_off (type : string) (bytes : list byte) :
  dumpBlock flags world type bytes = ret None.
Proof. unfold dumpBlock. rewrite dump_off. reflexivity. Qed.

Ltac no_dump :=
  repeat first [ rewrite dumpBlock_off | avoids_step ].

Lemma parseResponse_writes_nothing (response : list byte) (issuer : x509.Certificate) :
  avoids is_StdoutPEM (parseResponse flags world response issuer).
Proof. unfold parseResponse, log_Println, log_Printf, emit. no_dump. Qed.

Lemma manualCheck_writes_nothing (ee issuer : x509.Certificate) :
  avoids is_StdoutPEM (manualCheck flags world ee issuer).
Proof.
  unfold manualCheck, manualCheck_ocspURL, log_Printf, emit.
  repeat first
    [ apply parseResponse_writes_nothing | rewrite dumpBlock_off | avoids_step ].
Qed.

Lemma processURL_writes_nothing : avoids is_StdoutPEM (processURL flags world).
Proof.
  unfold processURL, stapledCheck, grabServerCert, grabIssuerCert,
    log_Println, log_Printf, emit.
  repeat first
    [ apply parseResponse_writes_nothing | apply manualCheck_writes_nothing
    | avoids_step ].
Qed.

Lemma processFile_writes_nothing : avoids is_StdoutPEM (processFile flags world).
Proof.
  unfold processFile, log_Printf, log_Fatalf, emit.
  repeat first [ apply manualCheck_writes_nothing | avoids_step ].
Qed.

(** X18.  Without the flag [-dump] (the pointer nil, or the flag
    false), no run of [main] writes a PEM block to standard output,
    whatever the world answers. *)
Theorem main_without_dump_writes_nothing :
  avoids is_StdoutPEM (main flags world).
Proof.
  unfold main, log_Fatalf.
  repeat first
    [ apply processURL_writes_nothing | apply processFile_writes_nothing
    | avoids_step ].
Qed.

End Dump_results.

(** ** The reason label *)

Lemma reason_number_of (n : Z) : reason_number (reason_of n) = Some n.
Proof.
  assert (Hdefault : reason_number ("unexpected value: " ++ Sprintf_d n) = Some n).
  { unfold reason_number. cbn [find reason_table snd String.eqb append Ascii.eqb
                                 Bool.eqb].
    cbn [String.length Nat.sub substring]. rewrite Nat.sub_0_r.
    replace (substring 0 (String.length (Sprintf_d n)) (Sprintf_d n))
      with (Sprintf_d n).
    - unfold Sprintf_d. rewrite NilZero.isi.
      + cbn [option_map]. rewrite DecimalZ.of_to. reflexivity.
      + destruct n; try discriminate; simpl; intros E; injection E as E;
          exact (DecimalPos.Unsigned.to_uint_nonnil _ E).
      + destruct n; try discriminate; simpl; intros E; injection E as E;
          exact (DecimalPos.Unsigned.to_uint_nonnil _ E).
    - induction (Sprintf_d n) as [|c s IH]; [reflexivity|].
      cbn [String.length substring]. rewrite <- IH. reflexivity. }
  destruct n as [|p|p]; [reflexivity| |exact Hdefault].
  do 4 (try destruct p as [p|p|]); first [reflexivity | exact Hdefault].
Qed.

(** X19.  The label of a revocation reason tells the number: two
    different numbers are never logged with the same reason, in the
    table or outside it. *)
Theorem reason_of_injective (n m : Z) : reason_of n = reason_of m -> n = m.
Proof.
  intros H.
  assert (Hs : Some n = Some m).
  { rewrite <- (reason_number_of n), <- (reason_number_of m), H. reflexivity. }
  injection Hs as Hs. exact Hs.
Qed.

(** ** The further properties at samples *)

(** X9 at a sample: the staple of the connection is accepted. *)
Lemma processURL_nil_means_response_witness :
  exists resp connState server issuer chain chains,
    http_Get (world_of [[leaf; ca]] (Some [x01]) (ocsp.response_of ocsp.good) leaf)
      None (destURL flags_url) = Ok resp
    /\ http.TLS resp = Some connState
    /\ tls.VerifiedChains connState = (server :: issuer :: chain) :: chains
    /\ ((exists staple parsed,
            tls.OCSPResponse connState = Some staple
            /\ is_set (nostaple flags_url) = false
            /\ ocsp_ParseResponse
                 (world_of [[leaf; ca]] (Some [x01]) (ocsp.response_of ocsp.good) leaf)
                 staple issuer = Ok parsed)
        \/ ((tls.OCSPResponse connState = None \/ is_set (nostaple flags_url) = true)
            /\ exists u req answer parsed,
                can_post flags_url
                  (world_of [[leaf; ca]] (Some [x01]) (ocsp.response_of ocsp.good) leaf)
                  server issuer u req
                /\ client_Do_POST
                     (world_of [[leaf; ca]] (Some [x01]) (ocsp.response_of ocsp.good) leaf)
                     u req = Ok answer
                /\ ocsp_ParseResponse
                     (world_of [[leaf; ca]] (Some [x01]) (ocsp.response_of ocsp.good) leaf)
                     (fst (http.Body answer)) issuer = Ok parsed)).
Proof.
  apply (processURL_nil_means_response flags_url
           (world_of [[leaf; ca]] (Some [x01]) (ocsp.response_of ocsp.good) leaf)).
  reflexivity.
Defined.

(** X11 at samples: the AIA extension stands between a key usage and a
    basic constraints extension; in [leaf_AIA_issuer] it gives the
    CA-Issuers URL after an OCSP description, in [leaf_AIA_mail] its
    CA-Issuers description has an rfc822Name for location, which
    [decodeAIA] refuses. *)
Lemma processFile_AIA_extension_decides_witness :
  (exists rest,
      trace (processFile flags_pem (world_online leaf_AIA_issuer))
      = ([ReadFile "cert.pem";
          LogPrintf "Fetching issuer certificate from %s"
            [ArgString "http://example.com/issuer.crt"];
          HttpGet "http://example.com/issuer.crt"] ++ rest)%list)
  /\
  processFile flags_pem (world_online leaf_AIA_mail)
  = ([ReadFile "cert.pem"],
     Returns (Some (Errorf "Unknown type for AIA Issuer extension: %+v"
                           [ArgRawValue
                              {| Class := 2; Tag := 1; IsCompound := false;
                                 Bytes := [x61; x40; x62; x2e; x63];
                                 FullBytes := mail_a_b_c |}]))).
Proof.
  split.
  - apply (proj1 (processFile_AIA_extension_decides (asn1 := DER)
                    flags_pem (world_online leaf_AIA_issuer)
                    [x30; x00] {| pem.Type_ := "CERTIFICATE"; pem.Bytes := [x30; x00] |}
                    leaf_AIA_issuer [extension_keyUsage]
                    {| x509.Id := authorityInfoAccess; x509.Critical := false;
                       x509.Value := aia_ocsp_issuer |}
                    [extension_basicConstraints]
                    eq_refl eq_refl eq_refl eq_refl
                    ltac:(intros e [<-|[]]; discriminate) eq_refl
                    ltac:(intros e [<-|[]]; discriminate))
             "http://example.com/issuer.crt").
    + vm_compute; reflexivity.
    + discriminate.
  - apply (proj2 (processFile_AIA_extension_decides (asn1 := DER)
                    flags_pem (world_online leaf_AIA_mail)
                    [x30; x00] {| pem.Type_ := "CERTIFICATE"; pem.Bytes := [x30; x00] |}
                    leaf_AIA_mail [extension_keyUsage]
                    {| x509.Id := authorityInfoAccess; x509.Critical := false;
                       x509.Value := aia_issuer_mail |}
                    [extension_basicConstraints]
                    eq_refl eq_refl eq_refl eq_refl
                    ltac:(intros e [<-|[]]; discriminate) eq_refl
                    ltac:(intros e [<-|[]]; discriminate))
             "").
    vm_compute; reflexivity.
Defined.

(** X13 at samples: the fetch fails; and the fetch gives the issuer. *)
Lemma processFile_fetch_then_check_witness :
  processFile flags_pem
    (world_of [] None (ocsp.response_of ocsp.good) leaf_AIA_issuer)
  = ([ReadFile "cert.pem";
      LogPrintf "Fetching issuer certificate from %s"
        [ArgString "http://example.com/issuer.crt"];
      HttpGet "http://example.com/issuer.crt"],
     Returns (Some refused))
  /\
  processFile flags_pem (world_online leaf_AIA_issuer)
  = (([ReadFile "cert.pem";
       LogPrintf "Fetching issuer certificate from %s"
         [ArgString "http://example.com/issuer.crt"];
       HttpGet "http://example.com/issuer.crt"]
      ++ trace (manualCheck flags_pem (world_online leaf_AIA_issuer) leaf_AIA_issuer ca))%list,
     result_of (manualCheck flags_pem (world_online leaf_AIA_issuer) leaf_AIA_issuer ca)).
Proof.
  split.
  - apply (proj1 (processFile_fetch_then_check (asn1 := DER) flags_pem
                    (world_of [] None (ocsp.response_of ocsp.good) leaf_AIA_issuer)
                    [x30; x00] {| pem.Type_ := "CERTIFICATE"; pem.Bytes := [x30; x00] |}
                    leaf_AIA_issuer "http://example.com/issuer.crt"
                    eq_refl eq_refl eq_refl ltac:(vm_compute; reflexivity))).
    left; reflexivity.
  - apply (proj2 (processFile_fetch_then_check (asn1 := DER) flags_pem (world_online leaf_AIA_issuer)
                    [x30; x00] {| pem.Type_ := "CERTIFICATE"; pem.Bytes := [x30; x00] |}
                    leaf_AIA_issuer "http://example.com/issuer.crt"
                    eq_refl eq_refl eq_refl ltac:(vm_compute; reflexivity))
             {| http.TLS := None; http.Body := ([x30; x01], None) |} [x30; x01] ca);
      reflexivity.
Defined.

(** X14 at a sample: the file does not exist. *)
Lemma processFile_unusable_file_exits_witness :
  result_of (processFile flags_pem world_no_file) = Exits 1
  /\ exists format args,
      trace (processFile flags_pem world_no_file)
      = [ReadFile "cert.pem"; LogPrintf format args].
Proof.
  apply (processFile_unusable_file_exits flags_pem world_no_file).
  left. eexists. reflexivity.
Defined.

(** X15 at a sample: the issuer is fetched and the responder answers. *)
Lemma processFile_nil_means_response_witness :
  exists certPEM block endEntity url response certBytes fetchedCert u req answer parsed,
    ioutil_ReadFile (world_online leaf_AIA_issuer) (certPath flags_pem) = Ok certPEM
    /\ pem_Decode (world_online leaf_AIA_issuer) certPEM = Some block
    /\ x509_ParseCertificate (world_online leaf_AIA_issuer) (pem.Bytes block)
       = Ok endEntity
    /\ processFile_scan (x509.Extensions endEntity) None = Ok (Some url)
    /\ http_Get (world_online leaf_AIA_issuer) (Some 10) url = Ok response
    /\ http.Body response = (certBytes, None)
    /\ x509_ParseCertificate (world_online leaf_AIA_issuer) certBytes = Ok fetchedCert
    /\ can_post flags_pem (world_online leaf_AIA_issuer) endEntity fetchedCert u req
    /\ client_Do_POST (world_online leaf_AIA_issuer) u req = Ok answer
    /\ ocsp_ParseResponse (world_online leaf_AIA_issuer) (fst (http.Body answer))
         fetchedCert = Ok parsed.
Proof.
  apply (processFile_nil_means_response flags_pem (world_online leaf_AIA_issuer)).
  vm_compute; reflexivity.
Defined.

(** X16 at samples: no input; and a URL with the prefix "http:" and a
    file. *)
Lemma main_rejects_inputs_witness :
  main {| destURL := ""; certPath := ""; respURL := Some "";
          nostaple := Some false; dump := Some false |}
    (world_online leaf_AIA_issuer)
  = ([LogPrintf "must provide a url or cert\n" []], Exits 1)
  /\ main flags_http (world_online leaf_AIA_issuer)
     = ([LogPrintf "must provide a https url\n" []], Exits 1).
Proof.
  split.
  - apply (proj1 (main_rejects_inputs
                    {| destURL := ""; certPath := ""; respURL := Some "";
                       nostaple := Some false; dump := Some false |}
                    (world_online leaf_AIA_issuer))).
    split; reflexivity.
  - apply (proj2 (main_rejects_inputs flags_http (world_online leaf_AIA_issuer))).
    split; [discriminate|reflexivity].
Defined.

(** X17 at a sample: the live-connection scenario alone, with an
    accepted staple. *)
Lemma main_exit_status_witness :
  result_of (main flags_url
               (world_of [[leaf; ca]] (Some [x01]) (ocsp.response_of ocsp.good) leaf))
  = Returns tt.
Proof.
  apply (proj2 (main_exit_status flags_url
                  (world_of [[leaf; ca]] (Some [x01]) (ocsp.response_of ocsp.good) leaf)
                  ltac:(right; discriminate) ltac:(reflexivity))).
  split; [right|left]; reflexivity.
Defined.

(** X18 at a sample: both scenarios, the dump off. *)
Lemma main_without_dump_writes_nothing_witness :
  avoids is_StdoutPEM
    (main flags_both
       (world_of [[leaf; ca]] (Some [x01]) (ocsp.response_of ocsp.good) leaf_AIA_issuer)).
Proof.
  apply (main_without_dump_writes_nothing flags_both
           (world_of [[leaf; ca]] (Some [x01]) (ocsp.response_of ocsp.good)
              leaf_AIA_issuer)).
  reflexivity.
Defined.

(** X19 at a sample: a label of the table is not the diagnostic of
    another number. *)
Lemma reason_of_injective_witness : reason_of 7 = reason_of 7 /\ 7 = 7.
Proof.
  split; [reflexivity|]. apply (reason_of_injective 7 7). reflexivity.
Defined.
